(** * jasmin: SMPP client configuration ([protocols/smpp/configs.py])

    A shallow embedding of the three components of the module:
    - the key translation table [SMPPClientConfigMap],
    - the validating constructor of [SMPPClientConfig],
    - the logging bootstrap [SMPPClientServiceConfig],
    followed by the properties stated for them.

    Python values are modelled by the type [value]: the sentinel [None],
    booleans, unbounded integers, reals, text and the opaque protocol
    values of the PDU codec.  Text is a sequence of 8-bit characters,
    [bool] is a subclass of [int], and numbers are compared by value, as
    in Python 3.  Tuples are values too, since the [%] operator that
    builds two of the error messages treats a tuple as its argument
    list.  Other containers (lists, dictionaries), numbers that are
    neither [int] nor [float] (complex, decimal, fraction) and objects
    with comparison or printing methods of their own are not values of
    the model.

    A raised exception is the [Raise] outcome of the error type [result];
    the keyword arguments of a call are a finite map from key to value. *)

From Stdlib Require Import ZArith String Ascii List Bool Lia.
From stdpp Require Import gmap strings pretty.

Local Open Scope Z_scope.
Local Open Scope string_scope.

(** ** Python values *)

(** A real is kept by its exact value: not-a-number, an infinity, or
    [m * 2^e].  Every IEEE double is of one of these forms. *)
Inductive pyfloat : Type :=
| FNan
| FInf (negative : bool)
| FFin (m e : Z).

(** Modelled from the spec: the protocol value types of
    [jasmin.vendor.smpp.pdu.pdu_types] ([AddrTon], [AddrNpi], [EsmClass],
    [PriorityFlag], [RegisteredDelivery], [ReplaceIfPresentFlag]) are not
    among the sources at hand.  The spec has them as opaque, pre-defined
    enumerated values, produced and consumed by the codec; such a value
    is kept here by the expression that names it, and equals only
    itself. *)
Inductive codec_value : Type :=
| Codec (expr : string).

#[warnings="-register-all"]
Inductive value : Type :=
| VNone
| VBool (b : bool)
| VInt (n : Z)
| VFloat (f : pyfloat)
| VStr (s : string)
| VCodec (c : codec_value)
| VTuple (items : list value).

(** What the interpreter prints for the values whose text form this
    module never fixes: reals, the codec's values and tuples. *)
Class PyRuntime : Type := {
  repr_float : pyfloat -> string;
  repr_codec : codec_value -> string;
  repr_tuple : list value -> string
}.

(** [str(v)] *)
Definition py_str `{!PyRuntime} (v : value) : string :=
  match v with
  | VNone => "None"
  | VBool true => "True"
  | VBool false => "False"
  | VInt n => pretty n
  | VFloat f => repr_float f
  | VStr s => s
  | VCodec c => repr_codec c
  | VTuple items => repr_tuple items
  end.

(** [isinstance(v, str)], [isinstance(v, int)], [isinstance(v, float)] *)
Definition isinstance_str (v : value) : bool :=
  match v with VStr _ => true | _ => false end.

Definition isinstance_int (v : value) : bool :=
  match v with VInt _ | VBool _ => true | _ => false end.

Definition isinstance_float (v : value) : bool :=
  match v with VFloat _ => true | _ => false end.

(** Exact comparison of two reals; an integer [n] is [FFin n 0]. *)
Definition float_eqb (x y : pyfloat) : bool :=
  match x, y with
  | FInf a, FInf b => Bool.eqb a b
  | FFin m e, FFin m' e' =>
      let k := Z.min e e' in
      (m * 2 ^ (e - k) =? m' * 2 ^ (e' - k))%Z
  | _, _ => false
  end.

Definition as_number (v : value) : option pyfloat :=
  match v with
  | VBool b => Some (FFin (if b then 1 else 0) 0)
  | VInt n => Some (FFin n 0)
  | VFloat f => Some f
  | _ => None
  end.

Definition codec_eqb (a b : codec_value) : bool :=
  match a, b with Codec x, Codec y => String.eqb x y end.

(** [isinstance(v, tuple)] *)
Definition is_tuple (v : value) : bool :=
  match v with VTuple _ => true | _ => false end.

(** [a == b]; two tuples are equal when they have the same length and
    equal items. *)
Fixpoint py_eq (a b : value) {struct a} : bool :=
  match a, b with
  | VNone, VNone => true
  | VStr s, VStr t => String.eqb s t
  | VCodec c, VCodec c' => codec_eqb c c'
  | VTuple xs, VTuple ys =>
      (fix items_eq (xs ys : list value) {struct xs} : bool :=
         match xs, ys with
         | [], [] => true
         | x :: xs', y :: ys' => py_eq x y && items_eq xs' ys'
         | _, _ => false
         end) xs ys
  | _, _ =>
      match as_number a, as_number b with
      | Some x, Some y => float_eqb x y
      | _, _ => false
      end
  end.

(** [v in l] *)
Definition py_in (v : value) (l : list value) : bool :=
  existsb (py_eq v) l.

(** [kwargs.get(k, d)] *)
Definition kwargs_get (kwargs : gmap string value) (k : string) (d : value) : value :=
  default d (kwargs !! k).

(** ** Exceptions *)

Inductive exn : Type :=
| ConfigUndefinedIdError (msg : string)
| ConfigInvalidIdError (msg : string)
| TypeMismatch (msg : string)
| UnknownValue (msg : string)
| TypeError (msg : string).   (* the built-in exception *)

Inductive result (A : Type) : Type :=
| Ok (a : A)
| Raise (e : exn).
Arguments Ok {A} a.
Arguments Raise {A} e.

(** [(prefix + '%s') % v].  A tuple on the right of [%] is the list of
    arguments: its single item is formatted, and a tuple with no item or
    with several does not fit the one [%s].  Any other value is the one
    argument, formatted by [str]. *)
Definition percent_s `{!PyRuntime} (prefix : string) (v : value)
    : result string :=
  match v with
  | VTuple [] => Raise (TypeError "not enough arguments for format string")
  | VTuple [x] => Ok (prefix +:+ py_str x)
  | VTuple _ =>
      Raise (TypeError "not all arguments converted during string formatting")
  | _ => Ok (prefix +:+ py_str v)
  end.

(** [raise UnknownValue(msg)], where evaluating [msg] may itself raise. *)
Definition raise_UnknownValue {A : Type} (msg : result string) : result A :=
  match msg with
  | Ok m => Raise (UnknownValue m)
  | Raise e => Raise e
  end.

(** ** The identifier pattern [^[A-Za-z0-9_-]{3,25}$] *)

(** The character class [[A-Za-z0-9_-]]. *)
Definition id_char (c : ascii) : bool :=
  let n := nat_of_ascii c in
  ((65 <=? n) && (n <=? 90) || (97 <=? n) && (n <=? 122)
   || (48 <=? n) && (n <=? 57) || (n =? 95) || (n =? 45))%nat.

(** [$]: the end of the text, or just before a final newline. *)
Definition at_end (s : string) : bool :=
  match s with
  | EmptyString => true
  | String c EmptyString => (nat_of_ascii c =? 10)%nat
  | _ => false
  end.

(** [cls{lo,hi}] followed by [k], greedy with backtracking. *)
Fixpoint repeat_class (cls : ascii -> bool) (lo hi : nat) (s : string)
    (k : string -> bool) : bool :=
  match hi with
  | O => (lo =? 0)%nat && k s
  | S hi' =>
      match s with
      | String c s' =>
          cls c && repeat_class cls (Nat.pred lo) hi' s' k
          || (lo =? 0)%nat && k s
      | EmptyString => (lo =? 0)%nat && k s
      end
  end.

(** [idcheck.match(s) != None] *)
Definition idcheck_match (s : string) : bool :=
  repeat_class id_char 3 25 s at_end.

(** ** class SMPPClientConfig *)

Module SMPPClientConfig.

(** The attributes set by the constructor, in the order of assignment. *)
Record t : Type := {
  id : string;
  host : value;
  port : value;
  username : value;
  password : value;
  systemType : value;
  log_file : value;
  log_level : value;
  log_format : value;
  log_date_format : value;
  sessionInitTimerSecs : value;
  enquireLinkTimerSecs : value;
  inactivityTimerSecs : value;
  responseTimerSecs : value;
  reconnectOnConnectionLoss : value;
  reconnectOnConnectionFailure : value;
  reconnectOnConnectionLossDelay : value;
  reconnectOnConnectionFailureDelay : value;
  pduReadTimerSecs : value;
  useSSL : value;
  SSLCertificateFile : value;
  bindOperation : value;
  service_type : value;
  bind_addr_ton : value;
  bind_addr_npi : value;
  source_addr_ton : value;
  source_addr_npi : value;
  dest_addr_ton : value;
  dest_addr_npi : value;
  address_range : value;
  source_addr : value;
  esm_class : value;
  protocol_id : value;
  priority_flag : value;
  schedule_delivery_time : value;
  validity_period : value;
  registered_delivery : value;
  replace_if_present_flag : value;
  sm_default_msg_id : value;
  data_coding : value;
  addressTon : value;
  addressNpi : value;
  addressRange : value;
  requeue_delay : value;
  submit_sm_throughput : value;
  dlr_expiry : value
}.

(** [logging.INFO] *)
Definition logging_INFO : value := VInt 20.

Definition bindOperation_values : list value :=
  [VStr "transceiver"; VStr "transmitter"; VStr "receiver"].

Definition data_coding_values : list value :=
  [VInt 0; VInt 1; VInt 2; VInt 3; VInt 4; VInt 5; VInt 6; VInt 7; VInt 8;
   VInt 9; VInt 10; VInt 13; VInt 14].

(** The constructor, called with keyword arguments [kwargs]: it either
    raises or yields the finished object. *)
Definition __init__ `{!PyRuntime} (kwargs : gmap string value) : result t :=
  let get := kwargs_get kwargs in
  if py_eq (get "id" VNone) VNone then
    Raise (ConfigUndefinedIdError "SMPPClientConfig must have an id")
  else
  if negb (idcheck_match (py_str (get "id" VNone))) then
    Raise (ConfigInvalidIdError "SMPPClientConfig id syntax is invalid")
  else
  let self_id := py_str (get "id" VNone) in
  let self_host := get "host" (VStr "127.0.0.1") in
  if negb (isinstance_str self_host) then
    Raise (TypeMismatch "host must be a string")
  else
  let self_port := get "port" (VInt 2775) in
  if negb (isinstance_int self_port) then
    Raise (TypeMismatch "port must be an integer")
  else
  let self_username := get "username" (VStr "smppclient") in
  let self_password := get "password" (VStr "password") in
  let self_systemType := get "systemType" (VStr "") in
  let self_log_file :=
    get "log_file" (VStr ("/var/log/jasmin/default-" +:+ self_id +:+ ".log")) in
  let self_log_level := get "log_level" logging_INFO in
  let self_log_format :=
    get "log_format" (VStr "%(asctime)s %(levelname)-8s %(process)d %(message)s") in
  let self_log_date_format := get "log_dateformat" (VStr "%Y-%m-%d %H:%M:%S") in
  let self_sessionInitTimerSecs := get "sessionInitTimerSecs" (VInt 30) in
  if negb (isinstance_int self_sessionInitTimerSecs)
     && negb (isinstance_float self_sessionInitTimerSecs) then
    Raise (TypeMismatch "sessionInitTimerSecs must be an integer or float")
  else
  let self_enquireLinkTimerSecs := get "enquireLinkTimerSecs" (VInt 10) in
  if negb (isinstance_int self_enquireLinkTimerSecs)
     && negb (isinstance_float self_enquireLinkTimerSecs) then
    Raise (TypeMismatch "enquireLinkTimerSecs must be an integer or float")
  else
  let self_inactivityTimerSecs := get "inactivityTimerSecs" (VInt 300) in
  if negb (isinstance_int self_inactivityTimerSecs)
     && negb (isinstance_float self_inactivityTimerSecs) then
    Raise (TypeMismatch "inactivityTimerSecs must be an integer or float")
  else
  let self_responseTimerSecs := get "responseTimerSecs" (VInt 60) in
  if negb (isinstance_int self_responseTimerSecs)
     && negb (isinstance_float self_responseTimerSecs) then
    Raise (TypeMismatch "responseTimerSecs must be an integer or float")
  else
  let self_reconnectOnConnectionLoss := get "reconnectOnConnectionLoss" (VBool true) in
  let self_reconnectOnConnectionFailure :=
    get "reconnectOnConnectionFailure" (VBool true) in
  let self_reconnectOnConnectionLossDelay :=
    get "reconnectOnConnectionLossDelay" (VInt 10) in
  if negb (isinstance_int self_reconnectOnConnectionLossDelay)
     && negb (isinstance_float self_reconnectOnConnectionLossDelay) then
    Raise (TypeMismatch "reconnectOnConnectionLossDelay must be an integer or float")
  else
  let self_reconnectOnConnectionFailureDelay :=
    get "reconnectOnConnectionFailureDelay" (VInt 10) in
  if negb (isinstance_int self_reconnectOnConnectionFailureDelay)
     && negb (isinstance_float self_reconnectOnConnectionFailureDelay) then
    Raise (TypeMismatch "reconnectOnConnectionFailureDelay must be an integer or float")
  else
  let self_pduReadTimerSecs := get "pduReadTimerSecs" (VInt 10) in
  if negb (isinstance_int self_pduReadTimerSecs)
     && negb (isinstance_float self_pduReadTimerSecs) then
    Raise (TypeMismatch "pduReadTimerSecs must be an integer or float")
  else
  let self_useSSL := get "useSSL" (VBool false) in
  let self_SSLCertificateFile := get "SSLCertificateFile" VNone in
  let self_bindOperation := get "bindOperation" (VStr "transceiver") in
  if negb (py_in self_bindOperation bindOperation_values) then
    raise_UnknownValue (percent_s "Invalid bindOperation: " self_bindOperation)
  else
  let self_service_type := get "service_type" VNone in
  let self_bind_addr_ton := get "bind_addr_ton" (VCodec (Codec "AddrTon.UNKNOWN")) in
  let self_bind_addr_npi := get "bind_addr_npi" (VCodec (Codec "AddrNpi.ISDN")) in
  let self_source_addr_ton := get "source_addr_ton" (VCodec (Codec "AddrTon.NATIONAL")) in
  let self_source_addr_npi := get "source_addr_npi" (VCodec (Codec "AddrNpi.ISDN")) in
  let self_dest_addr_ton := get "dest_addr_ton" (VCodec (Codec "AddrTon.INTERNATIONAL")) in
  let self_dest_addr_npi := get "dest_addr_npi" (VCodec (Codec "AddrNpi.ISDN")) in
  let self_address_range := get "address_range" VNone in
  let self_source_addr := get "source_addr" VNone in
  let self_esm_class :=
    get "esm_class"
      (VCodec
         (Codec "EsmClass(EsmClassMode.STORE_AND_FORWARD, EsmClassType.DEFAULT)")) in
  let self_protocol_id := get "protocol_id" VNone in
  let self_priority_flag := get "priority_flag" (VCodec (Codec "PriorityFlag.LEVEL_0")) in
  let self_schedule_delivery_time := get "schedule_delivery_time" VNone in
  let self_validity_period := get "validity_period" VNone in
  let self_registered_delivery :=
    get "registered_delivery"
      (VCodec
         (Codec
            "RegisteredDelivery(RegisteredDeliveryReceipt.NO_SMSC_DELIVERY_RECEIPT_REQUESTED)")) in
  let self_replace_if_present_flag :=
    get "replace_if_present_flag" (VCodec (Codec "ReplaceIfPresentFlag.DO_NOT_REPLACE")) in
  let self_sm_default_msg_id := get "sm_default_msg_id" (VInt 0) in
  let self_data_coding := get "data_coding" (VInt 0) in
  if negb (py_in self_data_coding data_coding_values) then
    raise_UnknownValue (percent_s "Invalid data_coding: " self_data_coding)
  else
  let self_addressTon := self_bind_addr_ton in
  let self_addressNpi := self_bind_addr_npi in
  let self_addressRange := self_address_range in
  let self_requeue_delay := get "requeue_delay" (VInt 120) in
  if negb (isinstance_int self_requeue_delay)
     && negb (isinstance_float self_requeue_delay) then
    Raise (TypeMismatch "requeue_delay must be an integer or float")
  else
  let self_submit_sm_throughput := get "submit_sm_throughput" (VInt 1) in
  if negb (isinstance_int self_submit_sm_throughput)
     && negb (isinstance_float self_submit_sm_throughput) then
    Raise (TypeMismatch "submit_sm_throughput must be an integer or float")
  else
  let self_dlr_expiry := get "dlr_expiry" (VInt 86400) in
  if negb (isinstance_int self_dlr_expiry)
     && negb (isinstance_float self_dlr_expiry) then
    Raise (TypeMismatch "dlr_expiry must be an integer or float")
  else
  Ok {|
    id := self_id;
    host := self_host;
    port := self_port;
    username := self_username;
    password := self_password;
    systemType := self_systemType;
    log_file := self_log_file;
    log_level := self_log_level;
    log_format := self_log_format;
    log_date_format := self_log_date_format;
    sessionInitTimerSecs := self_sessionInitTimerSecs;
    enquireLinkTimerSecs := self_enquireLinkTimerSecs;
    inactivityTimerSecs := self_inactivityTimerSecs;
    responseTimerSecs := self_responseTimerSecs;
    reconnectOnConnectionLoss := self_reconnectOnConnectionLoss;
    reconnectOnConnectionFailure := self_reconnectOnConnectionFailure;
    reconnectOnConnectionLossDelay := self_reconnectOnConnectionLossDelay;
    reconnectOnConnectionFailureDelay := self_reconnectOnConnectionFailureDelay;
    pduReadTimerSecs := self_pduReadTimerSecs;
    useSSL := self_useSSL;
    SSLCertificateFile := self_SSLCertificateFile;
    bindOperation := self_bindOperation;
    service_type := self_service_type;
    bind_addr_ton := self_bind_addr_ton;
    bind_addr_npi := self_bind_addr_npi;
    source_addr_ton := self_source_addr_ton;
    source_addr_npi := self_source_addr_npi;
    dest_addr_ton := self_dest_addr_ton;
    dest_addr_npi := self_dest_addr_npi;
    address_range := self_address_range;
    source_addr := self_source_addr;
    esm_class := self_esm_class;
    protocol_id := self_protocol_id;
    priority_flag := self_priority_flag;
    schedule_delivery_time := self_schedule_delivery_time;
    validity_period := self_validity_period;
    registered_delivery := self_registered_delivery;
    replace_if_present_flag := self_replace_if_present_flag;
    sm_default_msg_id := self_sm_default_msg_id;
    data_coding := self_data_coding;
    addressTon := self_addressTon;
    addressNpi := self_addressNpi;
    addressRange := self_addressRange;
    requeue_delay := self_requeue_delay;
    submit_sm_throughput := self_submit_sm_throughput;
    dlr_expiry := self_dlr_expiry
  |}.

End SMPPClientConfig.

(** ** The key translation table *)

(** The dictionary literal, entry by entry: user-facing key, attribute. *)
Definition SMPPClientConfigMap_items : list (string * string) :=
  [("cid", "id"); ("host", "host"); ("port", "port"); ("username", "username");
   ("password", "password"); ("systype", "systemType"); ("logfile", "log_file");
   ("loglevel", "log_level");
   ("bind_to", "sessionInitTimerSecs"); ("elink_interval", "enquireLinkTimerSecs");
   ("trx_to", "inactivityTimerSecs");
   ("res_to", "responseTimerSecs"); ("con_loss_retry", "reconnectOnConnectionLoss");
   ("con_fail_retry", "reconnectOnConnectionFailure");
   ("con_loss_delay", "reconnectOnConnectionLossDelay");
   ("con_fail_delay", "reconnectOnConnectionFailureDelay");
   ("pdu_red_to", "pduReadTimerSecs"); ("bind", "bindOperation");
   ("bind_ton", "bind_addr_ton"); ("bind_npi", "bind_addr_npi");
   ("src_ton", "source_addr_ton"); ("src_npi", "source_addr_npi");
   ("dst_ton", "dest_addr_ton"); ("dst_npi", "dest_addr_npi");
   ("addr_range", "address_range"); ("src_addr", "source_addr");
   ("esm_class", "esm_class"); ("proto_id", "protocol_id");
   ("priority", "priority_flag"); ("validity", "validity_period");
   ("dlr", "registered_delivery"); ("ripf", "replace_if_present_flag");
   ("def_msg_id", "sm_default_msg_id"); ("coding", "data_coding");
   ("requeue_delay", "requeue_delay"); ("submit_throughput", "submit_sm_throughput");
   ("dlr_expiry", "dlr_expiry")].

Definition SMPPClientConfigMap : gmap string string :=
  list_to_map SMPPClientConfigMap_items.

(** Looking a user-facing key up in the table; [None] when the key is not
    recognized. *)
Definition translate (externalKey : string) : option string :=
  SMPPClientConfigMap !! externalKey.

(** ** class SMPPClientServiceConfig *)

(** Modelled from the spec: the base class [ConfigFile] of
    [jasmin.config.tools] is not part of the sources at hand.  The spec
    describes it as a file-backed section/key store read with per-key
    defaults: a stored value is returned as it is, and the default stands
    in for a missing section or a missing key. *)
Definition ConfigFile_get (store : gmap string (gmap string string))
    (section option_ dflt : string) : string :=
  match store !! section with
  | Some sec => default dflt (sec !! option_)
  | None => dflt
  end.

(** [logging.getLevelName] of the standard library, on a level given as
    text: the numeric severity of a known name, and otherwise the text
    ["Level <name>"]. *)
Definition logging_getLevelName (level : string) : value :=
  if String.eqb level "CRITICAL" then VInt 50
  else if String.eqb level "FATAL" then VInt 50
  else if String.eqb level "ERROR" then VInt 40
  else if String.eqb level "WARN" then VInt 30
  else if String.eqb level "WARNING" then VInt 30
  else if String.eqb level "INFO" then VInt 20
  else if String.eqb level "DEBUG" then VInt 10
  else if String.eqb level "NOTSET" then VInt 0
  else VStr ("Level " +:+ level).

Module SMPPClientServiceConfig.

Record t : Type := {
  log_level : value;
  log_file : string;
  log_format : string;
  log_date_format : string
}.

(** The constructor, given the store that [ConfigFile.__init__] has read
    from [config_file]. *)
Definition __init__ (store : gmap string (gmap string string)) : t :=
  let _get := ConfigFile_get store in
  {|
    log_level := logging_getLevelName (_get "service-smppclient" "log_level" "INFO");
    log_file :=
      _get "services-smppclient" "log_file" "/var/log/jasmin/service-smppclient.log";
    log_format :=
      _get "services-smppclient" "log_format"
        "%(asctime)s %(levelname)-8s %(process)d %(message)s";
    log_date_format :=
      _get "services-smppclient" "log_date_format" "%Y-%m-%d %H:%M:%S"
  |}.

End SMPPClientServiceConfig.

(** ** The checks of the constructor, in source order *)

(** The identifier gate: the two tests that open the constructor. *)
Definition id_gate `{!PyRuntime} (kwargs : gmap string value) : option exn :=
  if py_eq (kwargs_get kwargs "id" VNone) VNone then
    Some (ConfigUndefinedIdError "SMPPClientConfig must have an id")
  else if negb (idcheck_match (py_str (kwargs_get kwargs "id" VNone))) then
    Some (ConfigInvalidIdError "SMPPClientConfig id syntax is invalid")
  else None.

(** The runtime types the constructor tests for. *)
Inductive pytype : Type :=
| TStr      (* isinstance(v, str) *)
| TInt      (* isinstance(v, int) *)
| TNumber.  (* isinstance(v, int) or isinstance(v, float) *)

Definition has_type (ty : pytype) (v : value) : bool :=
  match ty with
  | TStr => isinstance_str v
  | TInt => isinstance_int v
  | TNumber => isinstance_int v || isinstance_float v
  end.

Definition type_phrase (ty : pytype) : string :=
  match ty with
  | TStr => "a string"
  | TInt => "an integer"
  | TNumber => "an integer or float"
  end.

(** A check reads one key with its default and tests the value found. *)
Inductive check : Type :=
| TypeCheck (field : string) (dflt : value) (ty : pytype)
| DomainCheck (field : string) (dflt : value) (allowed : list value).

Definition run_check `{!PyRuntime} (kwargs : gmap string value) (c : check)
    : option exn :=
  match c with
  | TypeCheck f d ty =>
      if has_type ty (kwargs_get kwargs f d) then None
      else Some (TypeMismatch (f +:+ " must be " +:+ type_phrase ty))
  | DomainCheck f d allowed =>
      if py_in (kwargs_get kwargs f d) allowed then None
      else
        match percent_s ("Invalid " +:+ f +:+ ": ") (kwargs_get kwargs f d) with
        | Ok msg => Some (UnknownValue msg)
        | Raise e => Some e
        end
  end.

Fixpoint first_error `{!PyRuntime} (kwargs : gmap string value) (cs : list check)
    : option exn :=
  match cs with
  | [] => None
  | c :: cs' =>
      match run_check kwargs c with
      | Some e => Some e
      | None => first_error kwargs cs'
      end
  end.

(** The fourteen checks that follow the identifier gate, as they come in
    the constructor. *)
Definition checks : list check :=
  [ TypeCheck "host" (VStr "127.0.0.1") TStr;
    TypeCheck "port" (VInt 2775) TInt;
    TypeCheck "sessionInitTimerSecs" (VInt 30) TNumber;
    TypeCheck "enquireLinkTimerSecs" (VInt 10) TNumber;
    TypeCheck "inactivityTimerSecs" (VInt 300) TNumber;
    TypeCheck "responseTimerSecs" (VInt 60) TNumber;
    TypeCheck "reconnectOnConnectionLossDelay" (VInt 10) TNumber;
    TypeCheck "reconnectOnConnectionFailureDelay" (VInt 10) TNumber;
    TypeCheck "pduReadTimerSecs" (VInt 10) TNumber;
    DomainCheck "bindOperation" (VStr "transceiver")
      SMPPClientConfig.bindOperation_values;
    DomainCheck "data_coding" (VInt 0) SMPPClientConfig.data_coding_values;
    TypeCheck "requeue_delay" (VInt 120) TNumber;
    TypeCheck "submit_sm_throughput" (VInt 1) TNumber;
    TypeCheck "dlr_expiry" (VInt 86400) TNumber ].

(** Every type check of the constructor passes. *)
Definition type_gates_pass (kwargs : gmap string value) : bool :=
  forallb
    (fun c =>
       match c with
       | TypeCheck f d ty => has_type ty (kwargs_get kwargs f d)
       | DomainCheck _ _ _ => true
       end)
    checks.

(** ** Vocabulary of the statements *)

(** The characters of the class, written out. *)
Definition id_alphabet : list ascii :=
  list_ascii_of_string
    "ABCDEFGHIJKLMNOPQRSTUVWXYZabcdefghijklmnopqrstuvwxyz0123456789_-".

(** The object built when every key but [id] is left out. *)
Definition defaults (self_id : string) : SMPPClientConfig.t :=
  {|
    SMPPClientConfig.id := self_id;
    SMPPClientConfig.host := VStr "127.0.0.1";
    SMPPClientConfig.port := VInt 2775;
    SMPPClientConfig.username := VStr "smppclient";
    SMPPClientConfig.password := VStr "password";
    SMPPClientConfig.systemType := VStr "";
    SMPPClientConfig.log_file :=
      VStr ("/var/log/jasmin/default-" +:+ self_id +:+ ".log");
    SMPPClientConfig.log_level := VInt 20;
    SMPPClientConfig.log_format :=
      VStr "%(asctime)s %(levelname)-8s %(process)d %(message)s";
    SMPPClientConfig.log_date_format := VStr "%Y-%m-%d %H:%M:%S";
    SMPPClientConfig.sessionInitTimerSecs := VInt 30;
    SMPPClientConfig.enquireLinkTimerSecs := VInt 10;
    SMPPClientConfig.inactivityTimerSecs := VInt 300;
    SMPPClientConfig.responseTimerSecs := VInt 60;
    SMPPClientConfig.reconnectOnConnectionLoss := VBool true;
    SMPPClientConfig.reconnectOnConnectionFailure := VBool true;
    SMPPClientConfig.reconnectOnConnectionLossDelay := VInt 10;
    SMPPClientConfig.reconnectOnConnectionFailureDelay := VInt 10;
    SMPPClientConfig.pduReadTimerSecs := VInt 10;
    SMPPClientConfig.useSSL := VBool false;
    SMPPClientConfig.SSLCertificateFile := VNone;
    SMPPClientConfig.bindOperation := VStr "transceiver";
    SMPPClientConfig.service_type := VNone;
    SMPPClientConfig.bind_addr_ton := VCodec (Codec "AddrTon.UNKNOWN");
    SMPPClientConfig.bind_addr_npi := VCodec (Codec "AddrNpi.ISDN");
    SMPPClientConfig.source_addr_ton := VCodec (Codec "AddrTon.NATIONAL");
    SMPPClientConfig.source_addr_npi := VCodec (Codec "AddrNpi.ISDN");
    SMPPClientConfig.dest_addr_ton := VCodec (Codec "AddrTon.INTERNATIONAL");
    SMPPClientConfig.dest_addr_npi := VCodec (Codec "AddrNpi.ISDN");
    SMPPClientConfig.address_range := VNone;
    SMPPClientConfig.source_addr := VNone;
    SMPPClientConfig.esm_class :=
      VCodec
        (Codec "EsmClass(EsmClassMode.STORE_AND_FORWARD, EsmClassType.DEFAULT)");
    SMPPClientConfig.protocol_id := VNone;
    SMPPClientConfig.priority_flag := VCodec (Codec "PriorityFlag.LEVEL_0");
    SMPPClientConfig.schedule_delivery_time := VNone;
    SMPPClientConfig.validity_period := VNone;
    SMPPClientConfig.registered_delivery :=
      VCodec
        (Codec
           "RegisteredDelivery(RegisteredDeliveryReceipt.NO_SMSC_DELIVERY_RECEIPT_REQUESTED)");
    SMPPClientConfig.replace_if_present_flag :=
      VCodec (Codec "ReplaceIfPresentFlag.DO_NOT_REPLACE");
    SMPPClientConfig.sm_default_msg_id := VInt 0;
    SMPPClientConfig.data_coding := VInt 0;
    SMPPClientConfig.addressTon := VCodec (Codec "AddrTon.UNKNOWN");
    SMPPClientConfig.addressNpi := VCodec (Codec "AddrNpi.ISDN");
    SMPPClientConfig.addressRange := VNone;
    SMPPClientConfig.requeue_delay := VInt 120;
    SMPPClientConfig.submit_sm_throughput := VInt 1;
    SMPPClientConfig.dlr_expiry := VInt 86400
  |}.

(** What the store holds under a section and a key, if anything. *)
Definition stored (store : gmap string (gmap string string))
    (section key : string) : option string :=
  store !! section ≫= fun sec => sec !! key.

(** The supplied bind operation, if any, is one of the three literals. *)
Definition bindOperation_inside (kwargs : gmap string value) : Prop :=
  kwargs !! "bindOperation" = None \/
  exists b, kwargs !! "bindOperation" = Some b
            /\ In b SMPPClientConfig.bindOperation_values.

(** The supplied data coding, if any, equals one of the thirteen codes. *)
Definition data_coding_inside (kwargs : gmap string value) : Prop :=
  kwargs !! "data_coding" = None \/
  exists v w, kwargs !! "data_coding" = Some v
              /\ In w SMPPClientConfig.data_coding_values /\ py_eq v w = true.

(** The keys the constructor looks up, in the order of the lookups. *)
Definition read_keys : list string :=
  [ "id"; "host"; "port"; "username"; "password"; "systemType"; "log_file";
    "log_level"; "log_format"; "log_dateformat"; "sessionInitTimerSecs";
    "enquireLinkTimerSecs"; "inactivityTimerSecs"; "responseTimerSecs";
    "reconnectOnConnectionLoss"; "reconnectOnConnectionFailure";
    "reconnectOnConnectionLossDelay"; "reconnectOnConnectionFailureDelay";
    "pduReadTimerSecs"; "useSSL"; "SSLCertificateFile"; "bindOperation";
    "service_type"; "bind_addr_ton"; "bind_addr_npi"; "source_addr_ton";
    "source_addr_npi"; "dest_addr_ton"; "dest_addr_npi"; "address_range";
    "source_addr"; "esm_class"; "protocol_id"; "priority_flag";
    "schedule_delivery_time"; "validity_period"; "registered_delivery";
    "replace_if_present_flag"; "sm_default_msg_id"; "data_coding";
    "requeue_delay"; "submit_sm_throughput"; "dlr_expiry" ].

(** Each key other than [id], with the attribute its value is assigned
    to. *)
Definition key_attribute : list (string * (SMPPClientConfig.t -> value)) :=
  [ ("host", SMPPClientConfig.host);
    ("port", SMPPClientConfig.port);
    ("username", SMPPClientConfig.username);
    ("password", SMPPClientConfig.password);
    ("systemType", SMPPClientConfig.systemType);
    ("log_file", SMPPClientConfig.log_file);
    ("log_level", SMPPClientConfig.log_level);
    ("log_format", SMPPClientConfig.log_format);
    ("log_dateformat", SMPPClientConfig.log_date_format);
    ("sessionInitTimerSecs", SMPPClientConfig.sessionInitTimerSecs);
    ("enquireLinkTimerSecs", SMPPClientConfig.enquireLinkTimerSecs);
    ("inactivityTimerSecs", SMPPClientConfig.inactivityTimerSecs);
    ("responseTimerSecs", SMPPClientConfig.responseTimerSecs);
    ("reconnectOnConnectionLoss", SMPPClientConfig.reconnectOnConnectionLoss);
    ("reconnectOnConnectionFailure",
     SMPPClientConfig.reconnectOnConnectionFailure);
    ("reconnectOnConnectionLossDelay",
     SMPPClientConfig.reconnectOnConnectionLossDelay);
    ("reconnectOnConnectionFailureDelay",
     SMPPClientConfig.reconnectOnConnectionFailureDelay);
    ("pduReadTimerSecs", SMPPClientConfig.pduReadTimerSecs);
    ("useSSL", SMPPClientConfig.useSSL);
    ("SSLCertificateFile", SMPPClientConfig.SSLCertificateFile);
    ("bindOperation", SMPPClientConfig.bindOperation);
    ("service_type", SMPPClientConfig.service_type);
    ("bind_addr_ton", SMPPClientConfig.bind_addr_ton);
    ("bind_addr_npi", SMPPClientConfig.bind_addr_npi);
    ("source_addr_ton", SMPPClientConfig.source_addr_ton);
    ("source_addr_npi", SMPPClientConfig.source_addr_npi);
    ("dest_addr_ton", SMPPClientConfig.dest_addr_ton);
    ("dest_addr_npi", SMPPClientConfig.dest_addr_npi);
    ("address_range", SMPPClientConfig.address_range);
    ("source_addr", SMPPClientConfig.source_addr);
    ("esm_class", SMPPClientConfig.esm_class);
    ("protocol_id", SMPPClientConfig.protocol_id);
    ("priority_flag", SMPPClientConfig.priority_flag);
    ("schedule_delivery_time", SMPPClientConfig.schedule_delivery_time);
    ("validity_period", SMPPClientConfig.validity_period);
    ("registered_delivery", SMPPClientConfig.registered_delivery);
    ("replace_if_present_flag", SMPPClientConfig.replace_if_present_flag);
    ("sm_default_msg_id", SMPPClientConfig.sm_default_msg_id);
    ("data_coding", SMPPClientConfig.data_coding);
    ("requeue_delay", SMPPClientConfig.requeue_delay);
    ("submit_sm_throughput", SMPPClientConfig.submit_sm_throughput);
    ("dlr_expiry", SMPPClientConfig.dlr_expiry) ].

(** The default of a check passes the check. *)
Definition default_passes (c : check) : bool :=
  match c with
  | TypeCheck _ d ty => has_type ty d
  | DomainCheck _ d allowed => py_in d allowed
  end.

(** The level names [logging.getLevelName] knows, with their severity. *)
Definition level_names : list (string * Z) :=
  [ ("CRITICAL", 50); ("FATAL", 50); ("ERROR", 40); ("WARN", 30);
    ("WARNING", 30); ("INFO", 20); ("DEBUG", 10); ("NOTSET", 0) ]%Z.

(** [msg] is [prefix] followed by the text of [v] as [%s] formats it:
    [str(v)] when [v] is not a tuple, and the [str] of its only item when
    [v] is a one-item tuple. *)
Definition formats_as `{!PyRuntime} (prefix : string) (v : value)
    (msg : string) : Prop :=
  (is_tuple v = false /\ msg = prefix +:+ py_str v)
  \/ (exists x, v = VTuple [x] /\ msg = prefix +:+ py_str x).

(** The text of one line feed. *)
Definition newline : string := String (ascii_of_nat 10) "".

(** A runtime to evaluate examples with; no example depends on it. *)
Definition sample_runtime : PyRuntime :=
  {| repr_float := fun _ => "<float>";
     repr_codec := fun c => match c with Codec expr => expr end;
     repr_tuple := fun _ => "<tuple>" |}.

(** ** Tactics *)

Ltac split_on c :=
  destruct c eqn:?; cbn [negb];
  [| try reflexivity;
     try (unfold raise_UnknownValue;
          match goal with
          | |- context [percent_s ?p ?v] => destruct (percent_s p v)
          end; reflexivity)].

Ltac split_check k :=
  match goal with
  | |- context [isinstance_int (kwargs_get ?kw k ?d) || ?b] =>
      split_on (isinstance_int (kwargs_get kw k d) || b)
  | |- context [isinstance_int (kwargs_get ?kw k ?d)] =>
      split_on (isinstance_int (kwargs_get kw k d))
  | |- context [isinstance_str (kwargs_get ?kw k ?d)] =>
      split_on (isinstance_str (kwargs_get kw k d))
  | |- context [py_in (kwargs_get ?kw k ?d) ?l] =>
      split_on (py_in (kwargs_get kw k d) l)
  end.

(** Inverting a successful construction: every test of the constructor
    went the passing way, and the object is the assembled record. *)
Ltac init_inv H :=
  unfold SMPPClientConfig.__init__ in H; cbv zeta in H;
  repeat match type of H with
    | (if ?c then _ else _) = _ =>
        destruct c eqn:?;
        [first [ discriminate H
               | unfold raise_UnknownValue in H;
                 match type of H with
                 | context [percent_s ?p ?v] => destruct (percent_s p v)
                 end; discriminate H ] |]
    end;
  injection H as <-.

(** ** The constructor and its checks *)

(** The constructor succeeds exactly when the identifier gate and the
    fourteen checks let the input through, and otherwise raises the first
    error met. *)
Lemma init_outcome `{!PyRuntime} (kwargs : gmap string value) :
  match id_gate kwargs, first_error kwargs checks with
  | Some e, _ => SMPPClientConfig.__init__ kwargs = Raise e
  | None, Some e => SMPPClientConfig.__init__ kwargs = Raise e
  | None, None => exists cfg, SMPPClientConfig.__init__ kwargs = Ok cfg
  end.
Proof.
  unfold SMPPClientConfig.__init__, id_gate, checks. cbv zeta.
  destruct (py_eq (kwargs_get kwargs "id" VNone) VNone); [reflexivity |].
  destruct (idcheck_match (py_str (kwargs_get kwargs "id" VNone)));
    cbn [negb]; [| reflexivity].
  cbn [first_error run_check has_type]. rewrite <- ?negb_orb.
  change ("Invalid " +:+ "bindOperation" +:+ ": ") with "Invalid bindOperation: ".
  change ("Invalid " +:+ "data_coding" +:+ ": ") with "Invalid data_coding: ".
  split_check "host".
  split_check "port".
  split_check "sessionInitTimerSecs".
  split_check "enquireLinkTimerSecs".
  split_check "inactivityTimerSecs".
  split_check "responseTimerSecs".
  split_check "reconnectOnConnectionLossDelay".
  split_check "reconnectOnConnectionFailureDelay".
  split_check "pduReadTimerSecs".
  split_check "bindOperation".
  split_check "data_coding".
  split_check "requeue_delay".
  split_check "submit_sm_throughput".
  split_check "dlr_expiry".
  all: eexists; reflexivity.
Qed.

Lemma init_raises `{!PyRuntime} (kwargs : gmap string value) (e : exn) :
  id_gate kwargs = Some e \/
    (id_gate kwargs = None /\ first_error kwargs checks = Some e) ->
  SMPPClientConfig.__init__ kwargs = Raise e.
Proof.
  pose proof (init_outcome kwargs) as Hout.
  intros [Hid | [Hid Hchk]]; rewrite Hid in Hout.
  - exact Hout.
  - rewrite Hchk in Hout. exact Hout.
Qed.

Lemma init_succeeds `{!PyRuntime} (kwargs : gmap string value) :
  id_gate kwargs = None -> first_error kwargs checks = None ->
  exists cfg, SMPPClientConfig.__init__ kwargs = Ok cfg.
Proof.
  pose proof (init_outcome kwargs) as Hout.
  intros Hid Hchk. rewrite Hid, Hchk in Hout. exact Hout.
Qed.

(** ** Values and lookups *)

Lemma py_eq_None (v : value) : py_eq v VNone = true <-> v = VNone.
Proof. destruct v as [| b | n | f | s | c | l]; simpl; split; congruence. Qed.

Lemma py_eq_None_false (v : value) : v <> VNone -> py_eq v VNone = false.
Proof.
  intros Hv. destruct (py_eq v VNone) eqn:E; [| reflexivity].
  apply py_eq_None in E. contradiction.
Qed.

Lemma kwargs_get_Some (kwargs : gmap string value) (k : string) (d v : value) :
  kwargs !! k = Some v -> kwargs_get kwargs k d = v.
Proof. unfold kwargs_get. intros ->. reflexivity. Qed.

Lemma kwargs_get_None (kwargs : gmap string value) (k : string) (d : value) :
  kwargs !! k = None -> kwargs_get kwargs k d = d.
Proof. unfold kwargs_get. intros ->. reflexivity. Qed.

Lemma kwargs_get_id_only (v : value) (k : string) (d : value) :
  kwargs_get {[ "id" := v ]} k d = if String.eqb k "id" then v else d.
Proof.
  unfold kwargs_get. destruct (String.eqb_spec k "id") as [-> | Hne].
  - rewrite lookup_singleton_eq. reflexivity.
  - rewrite lookup_singleton_ne by congruence. reflexivity.
Qed.

(** ** The identifier pattern *)

Lemma id_char_alphabet (c : ascii) :
  id_char c = existsb (Ascii.eqb c) id_alphabet.
Proof. destruct c as [[] [] [] [] [] [] [] []]; vm_compute; reflexivity. Qed.

Lemma id_char_In (c : ascii) : In c id_alphabet -> id_char c = true.
Proof.
  intros Hin. rewrite id_char_alphabet. apply existsb_exists.
  exists c. split; [exact Hin | apply Ascii.eqb_refl].
Qed.

Lemma repeat_class_all (cls : ascii -> bool) (hi : nat) :
  forall (lo : nat) (s : string),
    (lo <= String.length s <= hi)%nat ->
    (forall c, In c (list_ascii_of_string s) -> cls c = true) ->
    repeat_class cls lo hi s at_end = true.
Proof.
  induction hi as [| hi IH]; intros lo s [Hlo Hhi] Hall.
  - destruct s as [| c s']; simpl in *; [| lia].
    assert (lo = 0)%nat as -> by lia. reflexivity.
  - destruct s as [| c s']; simpl in *.
    + assert (lo = 0)%nat as -> by lia. reflexivity.
    + rewrite (Hall c) by (left; reflexivity).
      rewrite IH; [reflexivity | lia |].
      intros c' Hc'. apply Hall. right. exact Hc'.
Qed.

Lemma at_end_cases (s : string) :
  at_end s = true -> s = "" \/ s = String (ascii_of_nat 10) "".
Proof.
  destruct s as [| c [| c' s']]; simpl; try discriminate; [auto |].
  intros Hc. right. apply Nat.eqb_eq in Hc.
  rewrite <- (ascii_nat_embedding c), Hc. reflexivity.
Qed.

Lemma repeat_class_sound (cls : ascii -> bool) (hi : nat) :
  forall (lo : nat) (s : string),
    repeat_class cls lo hi s at_end = true ->
    exists body rest,
      s = body +:+ rest /\ at_end rest = true
      /\ (lo <= String.length body <= hi)%nat
      /\ (forall c, In c (list_ascii_of_string body) -> cls c = true).
Proof.
  assert (forall lo s, (lo =? 0)%nat && at_end s = true ->
            forall n, exists body rest,
              s = body +:+ rest /\ at_end rest = true
              /\ (lo <= String.length body <= n)%nat
              /\ (forall c, In c (list_ascii_of_string body) -> cls c = true))
    as Hstop.
  { intros lo s Hs n. apply andb_true_iff in Hs as [Hlo Hend].
    apply Nat.eqb_eq in Hlo. exists "", s. simpl.
    repeat split; [exact Hend | lia | lia | tauto]. }
  induction hi as [| hi IH]; intros lo s Hm; simpl in Hm.
  - apply Hstop, Hm.
  - destruct s as [| c s']; [apply Hstop, Hm |].
    apply orb_true_iff in Hm as [Hm | Hm]; [| apply Hstop, Hm].
    apply andb_true_iff in Hm as [Hc Hm].
    destruct (IH _ _ Hm) as (body & rest & -> & Hend & Hlen & Hall).
    exists (String c body), rest. simpl.
    repeat split; [exact Hend | lia | lia |].
    intros c' [<- | Hc']; [exact Hc | apply Hall, Hc'].
Qed.

(** What the pattern accepts: between 3 and 25 characters of the class,
    and possibly one final newline. *)
Lemma idcheck_match_sound (s : string) :
  idcheck_match s = true ->
  exists body,
    (s = body \/ s = body +:+ String (ascii_of_nat 10) "")
    /\ (3 <= String.length body <= 25)%nat
    /\ (forall c, In c (list_ascii_of_string body) -> id_char c = true).
Proof.
  intros Hm. apply repeat_class_sound in Hm
    as (body & rest & -> & Hend & Hlen & Hall).
  exists body. split; [| split; assumption].
  destruct (at_end_cases rest Hend) as [-> | ->]; [left | right; reflexivity].
  clear. induction body as [| c body IH]; [reflexivity |].
  change (String c (body +:+ "") = String c body). rewrite IH. reflexivity.
Qed.

Lemma idcheck_match_valid (s : string) :
  (3 <= String.length s <= 25)%nat ->
  (forall c, In c (list_ascii_of_string s) -> In c id_alphabet) ->
  idcheck_match s = true.
Proof.
  intros Hlen Hall. apply repeat_class_all; [exact Hlen |].
  intros c Hc. apply id_char_In, Hall, Hc.
Qed.

(** ** Construction from the identifier alone *)

Lemma init_id_only `{!PyRuntime} (v : value) :
  v <> VNone -> idcheck_match (py_str v) = true ->
  SMPPClientConfig.__init__ {[ "id" := v ]} = Ok (defaults (py_str v)).
Proof.
  intros Hv Hid. unfold SMPPClientConfig.__init__. cbv zeta.
  rewrite !kwargs_get_id_only. cbn [String.eqb Ascii.eqb Bool.eqb].
  rewrite (py_eq_None_false v Hv), Hid. reflexivity.
Qed.

(** ** The identifier gate *)

Example idcheck_too_short : idcheck_match "ab" = false.
Proof. reflexivity. Qed.

Example idcheck_spaces : idcheck_match "id with spaces" = false.
Proof. reflexivity. Qed.

Example idcheck_too_long : idcheck_match "toolongtoolongtoolongtoolong1" = false.
Proof. reflexivity. Qed.

(** A missing identifier stops the constructor at its first test. *)
Lemma missing_identifier_raises `{!PyRuntime} (kwargs : gmap string value) :
  kwargs !! "id" = None \/ kwargs !! "id" = Some VNone ->
  SMPPClientConfig.__init__ kwargs =
    Raise (ConfigUndefinedIdError "SMPPClientConfig must have an id").
Proof.
  intros Hid. apply init_raises. left. unfold id_gate.
  assert (kwargs_get kwargs "id" VNone = VNone) as ->.
  { destruct Hid as [Hid | Hid].
    - apply kwargs_get_None, Hid.
    - apply kwargs_get_Some, Hid. }
  reflexivity.
Qed.

(** C1. Whatever the other keys hold, a missing identifier (no key [id],
    or [id] bound to [None]) raises [ConfigUndefinedIdError], the kind
    MissingIdentifier; and an identifier whose text form does not match
    the pattern raises [ConfigInvalidIdError], the kind
    InvalidIdentifierSyntax.  The statement holds for every input, so no
    other malformed field can take precedence over the identifier. *)
Theorem identifier_gate_first `{!PyRuntime} (kwargs : gmap string value) :
  (kwargs !! "id" = None \/ kwargs !! "id" = Some VNone ->
   SMPPClientConfig.__init__ kwargs =
     Raise (ConfigUndefinedIdError "SMPPClientConfig must have an id"))
  /\
  (forall v, kwargs !! "id" = Some v -> v <> VNone ->
     idcheck_match (py_str v) = false ->
     SMPPClientConfig.__init__ kwargs =
       Raise (ConfigInvalidIdError "SMPPClientConfig id syntax is invalid")).
Proof.
  split.
  - apply missing_identifier_raises.
  - intros v Hid Hv Hbad. apply init_raises. left. unfold id_gate.
    rewrite (kwargs_get_Some _ _ _ _ Hid).
    rewrite (py_eq_None_false v Hv), Hbad. reflexivity.
Qed.

Lemma identifier_gate_first_witness :
  @SMPPClientConfig.__init__ sample_runtime {[ "port" := VStr "abc" ]} =
    Raise (ConfigUndefinedIdError "SMPPClientConfig must have an id")
  /\
  @SMPPClientConfig.__init__ sample_runtime
    (<[ "id" := VStr "id with spaces" ]> {[ "port" := VStr "abc" ]}) =
    Raise (ConfigInvalidIdError "SMPPClientConfig id syntax is invalid").
Proof.
  split.
  - apply (proj1 (@identifier_gate_first sample_runtime _)).
    left. reflexivity.
  - apply (proj2 (@identifier_gate_first sample_runtime _) (VStr "id with spaces")).
    + reflexivity.
    + discriminate.
    + reflexivity.
Defined.

(** C4. An identifier of 3 to 25 characters, all of them letters, digits,
    [_] or [-], given alone, builds the object that holds every default. *)
Theorem valid_identifier_builds `{!PyRuntime} (s : string) :
  (3 <= String.length s <= 25)%nat ->
  (forall c, In c (list_ascii_of_string s) -> In c id_alphabet) ->
  SMPPClientConfig.__init__ {[ "id" := VStr s ]} = Ok (defaults s).
Proof.
  intros Hlen Hall.
  apply (init_id_only (VStr s)); [discriminate |].
  apply idcheck_match_valid; assumption.
Qed.

Lemma valid_identifier_builds_witness :
  @SMPPClientConfig.__init__ sample_runtime {[ "id" := VStr "gw-1_A" ]} =
    Ok (defaults "gw-1_A").
Proof.
  apply (@valid_identifier_builds sample_runtime "gw-1_A").
  - simpl. lia.
  - intros c Hc. simpl in Hc.
    repeat (destruct Hc as [<- | Hc]; [vm_compute; tauto |]).
    destruct Hc.
Defined.

(** C5. In a built object, a key left out of the input holds its default:
    [host] is the loopback address, [port] 2775, [data_coding] the
    integer 0, which is one of the listed codes and not [None],
    [requeue_delay] 120, [submit_sm_throughput] 1 and [dlr_expiry]
    86400. *)
Theorem absent_fields_defaulted `{!PyRuntime} (kwargs : gmap string value)
    (cfg : SMPPClientConfig.t) :
  SMPPClientConfig.__init__ kwargs = Ok cfg ->
  (kwargs !! "host" = None -> SMPPClientConfig.host cfg = VStr "127.0.0.1")
  /\ (kwargs !! "port" = None -> SMPPClientConfig.port cfg = VInt 2775)
  /\ (kwargs !! "data_coding" = None ->
      SMPPClientConfig.data_coding cfg = VInt 0
      /\ In (VInt 0) SMPPClientConfig.data_coding_values)
  /\ (kwargs !! "requeue_delay" = None ->
      SMPPClientConfig.requeue_delay cfg = VInt 120)
  /\ (kwargs !! "submit_sm_throughput" = None ->
      SMPPClientConfig.submit_sm_throughput cfg = VInt 1)
  /\ (kwargs !! "dlr_expiry" = None ->
      SMPPClientConfig.dlr_expiry cfg = VInt 86400).
Proof.
  intros Hok. init_inv Hok. cbn.
  split; [| split; [| split; [| split; [| split]]]]; intros Habs;
    try (apply kwargs_get_None, Habs).
  split; [apply kwargs_get_None, Habs | left; reflexivity].
Qed.

Lemma absent_fields_defaulted_witness :
  exists cfg,
    @SMPPClientConfig.__init__ sample_runtime {[ "id" := VStr "gw1" ]} = Ok cfg
    /\ SMPPClientConfig.host cfg = VStr "127.0.0.1"
    /\ SMPPClientConfig.port cfg = VInt 2775
    /\ SMPPClientConfig.data_coding cfg = VInt 0
    /\ SMPPClientConfig.requeue_delay cfg = VInt 120
    /\ SMPPClientConfig.submit_sm_throughput cfg = VInt 1
    /\ SMPPClientConfig.dlr_expiry cfg = VInt 86400.
Proof.
  destruct (@SMPPClientConfig.__init__ sample_runtime {[ "id" := VStr "gw1" ]})
    as [cfg | e] eqn:Hrun; [| vm_compute in Hrun; discriminate Hrun].
  exists cfg. split; [reflexivity |].
  destruct (@absent_fields_defaulted sample_runtime _ cfg Hrun)
    as (Hhost & Hport & Hcoding & Hrequeue & Hsubmit & Hdlr).
  refine (conj (Hhost _) (conj (Hport _) (conj (proj1 (Hcoding _))
            (conj (Hrequeue _) (conj (Hsubmit _) (Hdlr _))))));
    reflexivity.
Defined.

(** C6. In a built object the log file is the supplied [log_file], taken
    as it is, when the key is present; when it is left out, it is the
    path [/var/log/jasmin/default-<id>.log] made from the identifier. *)
Theorem log_file_derivation `{!PyRuntime} (kwargs : gmap string value)
    (cfg : SMPPClientConfig.t) :
  SMPPClientConfig.__init__ kwargs = Ok cfg ->
  (kwargs !! "log_file" = None ->
   SMPPClientConfig.log_file cfg =
     VStr ("/var/log/jasmin/default-" +:+ SMPPClientConfig.id cfg +:+ ".log"))
  /\ (forall v, kwargs !! "log_file" = Some v -> SMPPClientConfig.log_file cfg = v)
  /\ (forall v, kwargs !! "id" = Some v -> SMPPClientConfig.id cfg = py_str v).
Proof.
  intros Hok. init_inv Hok. cbn. split; [| split].
  - intros Habs. apply kwargs_get_None, Habs.
  - intros v Hv. apply kwargs_get_Some, Hv.
  - intros v Hv. rewrite (kwargs_get_Some _ _ _ _ Hv). reflexivity.
Qed.

Lemma log_file_derivation_witness :
  (exists cfg,
     @SMPPClientConfig.__init__ sample_runtime {[ "id" := VStr "gw1" ]} = Ok cfg
     /\ SMPPClientConfig.log_file cfg = VStr "/var/log/jasmin/default-gw1.log")
  /\ (exists cfg,
        @SMPPClientConfig.__init__ sample_runtime
          (<[ "log_file" := VStr "/tmp/gw1.log" ]> {[ "id" := VStr "gw1" ]}) = Ok cfg
        /\ SMPPClientConfig.log_file cfg = VStr "/tmp/gw1.log").
Proof.
  split.
  - exists (defaults "gw1"). split; [reflexivity |].
    destruct (@log_file_derivation sample_runtime {[ "id" := VStr "gw1" ]}
                (defaults "gw1")) as (Hderived & _ & Hid); [reflexivity |].
    rewrite Hderived by reflexivity.
    rewrite (Hid (VStr "gw1")) by reflexivity. reflexivity.
  - destruct (@SMPPClientConfig.__init__ sample_runtime
                (<[ "log_file" := VStr "/tmp/gw1.log" ]> {[ "id" := VStr "gw1" ]}))
      as [cfg | e] eqn:Hrun; [| vm_compute in Hrun; discriminate Hrun].
    exists cfg. split; [reflexivity |].
    destruct (@log_file_derivation sample_runtime _ cfg Hrun) as (_ & Hgiven & _).
    apply Hgiven. reflexivity.
Defined.

(** C7. In a built object the three compatibility attributes are copies:
    [addressTon] of [bind_addr_ton], [addressNpi] of [bind_addr_npi] and
    [addressRange] of [address_range], whether those were supplied or
    defaulted. *)
Theorem aliases_mirror_canonical `{!PyRuntime} (kwargs : gmap string value)
    (cfg : SMPPClientConfig.t) :
  SMPPClientConfig.__init__ kwargs = Ok cfg ->
  SMPPClientConfig.addressTon cfg = SMPPClientConfig.bind_addr_ton cfg
  /\ SMPPClientConfig.addressNpi cfg = SMPPClientConfig.bind_addr_npi cfg
  /\ SMPPClientConfig.addressRange cfg = SMPPClientConfig.address_range cfg
  /\ SMPPClientConfig.bind_addr_ton cfg =
       kwargs_get kwargs "bind_addr_ton" (VCodec (Codec "AddrTon.UNKNOWN"))
  /\ SMPPClientConfig.bind_addr_npi cfg =
       kwargs_get kwargs "bind_addr_npi" (VCodec (Codec "AddrNpi.ISDN"))
  /\ SMPPClientConfig.address_range cfg = kwargs_get kwargs "address_range" VNone.
Proof.
  intros Hok. init_inv Hok. cbn. repeat split.
Qed.

Lemma aliases_mirror_canonical_witness :
  exists cfg,
    @SMPPClientConfig.__init__ sample_runtime
      (<[ "bind_addr_ton" := VCodec (Codec "AddrTon.NATIONAL") ]>
         (<[ "address_range" := VStr "^1" ]> {[ "id" := VStr "gw1" ]})) = Ok cfg
    /\ SMPPClientConfig.addressTon cfg = VCodec (Codec "AddrTon.NATIONAL")
    /\ SMPPClientConfig.addressNpi cfg = VCodec (Codec "AddrNpi.ISDN")
    /\ SMPPClientConfig.addressRange cfg = VStr "^1".
Proof.
  destruct (@SMPPClientConfig.__init__ sample_runtime
      (<[ "bind_addr_ton" := VCodec (Codec "AddrTon.NATIONAL") ]>
         (<[ "address_range" := VStr "^1" ]> {[ "id" := VStr "gw1" ]})))
    as [cfg | e] eqn:Hrun; [| vm_compute in Hrun; discriminate Hrun].
  exists cfg.
  destruct (@aliases_mirror_canonical sample_runtime _ cfg Hrun)
    as (Hton & Hnpi & Hrange & Hton' & Hnpi' & Hrange').
  split; [reflexivity |].
  rewrite Hton, Hnpi, Hrange, Hton', Hnpi', Hrange'.
  vm_compute. auto.
Defined.

(** C10. An identifier bound to [None] is a missing identifier: the error
    is [ConfigUndefinedIdError], as when the key is left out.  An
    identifier that is not text is judged by its text form: when that
    matches the pattern the object is built and its [id] is the text form,
    as for the integer 12345. *)
Theorem identifier_none_and_nonstring `{!PyRuntime} :
  (forall kwargs : gmap string value,
     kwargs !! "id" = Some VNone ->
     SMPPClientConfig.__init__ kwargs =
       Raise (ConfigUndefinedIdError "SMPPClientConfig must have an id")
     /\ SMPPClientConfig.__init__ kwargs =
          SMPPClientConfig.__init__ (delete "id" kwargs))
  /\ (forall v, isinstance_str v = false -> v <> VNone ->
        idcheck_match (py_str v) = true ->
        SMPPClientConfig.__init__ {[ "id" := v ]} = Ok (defaults (py_str v)))
  /\ (forall (kwargs : gmap string value) v cfg,
        kwargs !! "id" = Some v ->
        SMPPClientConfig.__init__ kwargs = Ok cfg ->
        SMPPClientConfig.id cfg = py_str v)
  /\ SMPPClientConfig.__init__ {[ "id" := VInt 12345 ]} = Ok (defaults "12345").
Proof.
  split; [| split; [| split]].
  - intros kwargs Hnone.
    assert (SMPPClientConfig.__init__ kwargs =
              Raise (ConfigUndefinedIdError "SMPPClientConfig must have an id"))
      as Hraise by (apply missing_identifier_raises; right; exact Hnone).
    split; [exact Hraise |]. rewrite Hraise. symmetry.
    apply missing_identifier_raises. left. apply lookup_delete_eq.
  - intros v _ Hv Hid. apply init_id_only; assumption.
  - intros kwargs v cfg Hv Hok. init_inv Hok. cbn.
    rewrite (kwargs_get_Some _ _ _ _ Hv). reflexivity.
  - apply (init_id_only (VInt 12345)); [discriminate | reflexivity].
Qed.

Lemma identifier_none_and_nonstring_witness :
  @SMPPClientConfig.__init__ sample_runtime
    (<[ "id" := VNone ]> {[ "host" := VStr "smsc.example" ]}) =
    Raise (ConfigUndefinedIdError "SMPPClientConfig must have an id")
  /\ @SMPPClientConfig.__init__ sample_runtime {[ "id" := VBool true ]} =
       Ok (defaults "True")
  /\ SMPPClientConfig.id (defaults "12345") = "12345".
Proof.
  destruct (@identifier_none_and_nonstring sample_runtime)
    as (Hnone & Hother & Hid & Hint).
  split; [| split].
  - apply (Hnone (<[ "id" := VNone ]> {[ "host" := VStr "smsc.example" ]})).
    reflexivity.
  - apply (Hother (VBool true)); [reflexivity | discriminate | reflexivity].
  - apply (Hid {[ "id" := VInt 12345 ]} (VInt 12345) (defaults "12345"));
      [reflexivity | exact Hint].
Defined.

(** ** The key translation table *)

Lemma SMPPClientConfigMap_keys_NoDup : NoDup (SMPPClientConfigMap_items.*1).
Proof.
  apply (bool_decide_eq_true_1 (NoDup (SMPPClientConfigMap_items.*1))).
  vm_compute. reflexivity.
Qed.

(** C8. The table sends [cid] to [id] and [elink_interval] to
    [enquireLinkTimerSecs]; a key that is not one of the registered keys
    is reported as not recognized; and nothing is returned but a
    registered pair. *)
Theorem translate_table :
  translate "cid" = Some "id"
  /\ translate "elink_interval" = Some "enquireLinkTimerSecs"
  /\ (forall k, ~ In k (map fst SMPPClientConfigMap_items) -> translate k = None)
  /\ (forall k v, translate k = Some v <-> In (k, v) SMPPClientConfigMap_items).
Proof.
  split; [reflexivity |]. split; [reflexivity |]. split.
  - intros k Hk. unfold translate, SMPPClientConfigMap.
    apply not_elem_of_list_to_map_1. rewrite list_elem_of_In. exact Hk.
  - intros k v. unfold translate, SMPPClientConfigMap.
    rewrite <- list_elem_of_In. symmetry.
    apply elem_of_list_to_map, SMPPClientConfigMap_keys_NoDup.
Qed.

Lemma translate_table_witness :
  translate "bind_timeout" = None
  /\ In ("bind_to", "sessionInitTimerSecs") SMPPClientConfigMap_items.
Proof.
  destruct translate_table as (_ & _ & Hunknown & Hpairs).
  split.
  - apply (Hunknown "bind_timeout"). simpl. intros Hin.
    repeat (destruct Hin as [Hin | Hin]; [discriminate Hin |]).
    exact Hin.
  - apply (proj1 (Hpairs "bind_to" "sessionInitTimerSecs")). reflexivity.
Defined.

(** ** The service configuration *)

Lemma ConfigFile_get_stored (store : gmap string (gmap string string))
    (section key dflt : string) :
  ConfigFile_get store section key dflt = default dflt (stored store section key).
Proof.
  unfold ConfigFile_get, stored. destruct (store !! section); reflexivity.
Qed.

Lemma getLevelName_known (name : string) (n : Z) :
  In (name, n) level_names -> logging_getLevelName name = VInt n.
Proof.
  unfold level_names. simpl. intros Hin.
  repeat (destruct Hin as [[= <- <-] | Hin]; [reflexivity |]). destruct Hin.
Qed.

Lemma getLevelName_unknown (name : string) :
  ~ In name (map fst level_names) ->
  logging_getLevelName name = VStr ("Level " +:+ name).
Proof.
  unfold level_names. simpl. intros Hout. unfold logging_getLevelName.
  repeat match goal with
    | |- context [String.eqb name ?known] =>
        destruct (String.eqb_spec name known) as [-> | _];
        [exfalso; apply Hout; tauto |]
    end.
  reflexivity.
Qed.

(** C9, as the constructor has it.  The constructor reads four keys, each
    with its literal default: the level name [log_level] in section
    [service-smppclient], and [log_file], [log_format] and
    [log_date_format] in section [services-smppclient].  The level of the
    object is what [logging.getLevelName] gives for the stored or
    defaulted name: the numeric severity when the name is one of the
    eight known level names, 20 for the default [INFO], and the text
    [Level <name>] for any other stored name.  Nothing else of the store
    is read: two stores that agree on the four keys give the same
    object. *)
Theorem service_config_load (store : gmap string (gmap string string)) :
  let cfg := SMPPClientServiceConfig.__init__ store in
  SMPPClientServiceConfig.log_level cfg =
    logging_getLevelName
      (default "INFO" (stored store "service-smppclient" "log_level"))
  /\ SMPPClientServiceConfig.log_file cfg =
       default "/var/log/jasmin/service-smppclient.log"
         (stored store "services-smppclient" "log_file")
  /\ SMPPClientServiceConfig.log_format cfg =
       default "%(asctime)s %(levelname)-8s %(process)d %(message)s"
         (stored store "services-smppclient" "log_format")
  /\ SMPPClientServiceConfig.log_date_format cfg =
       default "%Y-%m-%d %H:%M:%S"
         (stored store "services-smppclient" "log_date_format")
  /\ (stored store "service-smppclient" "log_level" = None ->
      SMPPClientServiceConfig.log_level cfg = VInt 20)
  /\ (forall name n,
        stored store "service-smppclient" "log_level" = Some name ->
        In (name, n) level_names ->
        SMPPClientServiceConfig.log_level cfg = VInt n)
  /\ (forall name,
        stored store "service-smppclient" "log_level" = Some name ->
        ~ In name (map fst level_names) ->
        SMPPClientServiceConfig.log_level cfg = VStr ("Level " +:+ name))
  /\ (forall store' : gmap string (gmap string string),
        stored store' "service-smppclient" "log_level" =
          stored store "service-smppclient" "log_level" ->
        stored store' "services-smppclient" "log_file" =
          stored store "services-smppclient" "log_file" ->
        stored store' "services-smppclient" "log_format" =
          stored store "services-smppclient" "log_format" ->
        stored store' "services-smppclient" "log_date_format" =
          stored store "services-smppclient" "log_date_format" ->
        SMPPClientServiceConfig.__init__ store' = cfg).
Proof.
  cbv zeta. unfold SMPPClientServiceConfig.__init__.
  cbn [SMPPClientServiceConfig.log_level SMPPClientServiceConfig.log_file
       SMPPClientServiceConfig.log_format SMPPClientServiceConfig.log_date_format].
  rewrite !ConfigFile_get_stored.
  split; [reflexivity |]. split; [reflexivity |]. split; [reflexivity |].
  split; [reflexivity |]. split; [| split; [| split]].
  - intros ->. reflexivity.
  - intros name n -> Hknown. apply getLevelName_known, Hknown.
  - intros name -> Hunknown. apply getLevelName_unknown, Hunknown.
  - intros store' Hlevel Hfile Hformat Hdate.
    rewrite !ConfigFile_get_stored, Hlevel, Hfile, Hformat, Hdate. reflexivity.
Qed.

Lemma service_config_load_witness :
  SMPPClientServiceConfig.log_level (SMPPClientServiceConfig.__init__ ∅) = VInt 20
  /\ SMPPClientServiceConfig.log_level
       (SMPPClientServiceConfig.__init__
          {[ "service-smppclient" := {[ "log_level" := "DEBUG" ]} ]}) = VInt 10
  /\ SMPPClientServiceConfig.log_level
       (SMPPClientServiceConfig.__init__
          {[ "service-smppclient" := {[ "log_level" := "verbose" ]} ]}) =
     VStr "Level verbose"
  /\ SMPPClientServiceConfig.__init__
       {[ "services-smppclient" := {[ "log_level" := "DEBUG" ]} ]} =
     SMPPClientServiceConfig.__init__ ∅.
Proof.
  split; [| split; [| split]].
  - destruct (service_config_load ∅) as (_ & _ & _ & _ & Hdefault & _).
    apply Hdefault. reflexivity.
  - destruct (service_config_load
                {[ "service-smppclient" := {[ "log_level" := "DEBUG" ]} ]})
      as (_ & _ & _ & _ & _ & Hknown & _).
    apply (Hknown "DEBUG" 10%Z); [reflexivity | simpl; tauto].
  - destruct (service_config_load
                {[ "service-smppclient" := {[ "log_level" := "verbose" ]} ]})
      as (_ & _ & _ & _ & _ & _ & Hunknown & _).
    apply (Hunknown "verbose"); [reflexivity |].
    simpl. intros Hin.
    repeat (destruct Hin as [Hin | Hin]; [discriminate Hin |]). exact Hin.
  - destruct (service_config_load ∅) as (_ & _ & _ & _ & _ & _ & _ & Hsame).
    apply Hsame; reflexivity.
Defined.

(** The claim C9 as first stated fails: for the stored name [debug] the
    level of the object is a text, not a numeric severity. *)
Lemma unknown_level_name_is_text :
  let cfg :=
    SMPPClientServiceConfig.__init__
      {[ "service-smppclient" := {[ "log_level" := "debug" ]} ]} in
  SMPPClientServiceConfig.log_level cfg = VStr "Level debug"
  /\ isinstance_int (SMPPClientServiceConfig.log_level cfg) = false
  /\ isinstance_float (SMPPClientServiceConfig.log_level cfg) = false.
Proof. cbv zeta. repeat split. Qed.

(** ** Type and domain checks *)

Lemma first_error_app `{!PyRuntime} (kwargs : gmap string value)
    (pre post : list check) :
  first_error kwargs (pre ++ post)%list =
    match first_error kwargs pre with
    | Some e => Some e
    | None => first_error kwargs post
    end.
Proof.
  induction pre as [| c pre IH]; simpl; [reflexivity |].
  destruct (run_check kwargs c); [reflexivity | exact IH].
Qed.

Lemma py_eq_VStr (v : value) (s : string) : py_eq v (VStr s) = true <-> v = VStr s.
Proof.
  destruct v as [| b | n | f | s0 | c | l]; simpl;
    try (split; [discriminate | congruence]).
  rewrite String.eqb_eq. split; congruence.
Qed.

Lemma py_in_exists (v : value) (l : list value) :
  py_in v l = true <-> exists w, In w l /\ py_eq v w = true.
Proof. unfold py_in. apply existsb_exists. Qed.

Lemma py_in_outside (v : value) (l : list value) :
  py_in v l = false <-> forall w, In w l -> py_eq v w = false.
Proof.
  unfold py_in. split.
  - intros Hin w Hw. destruct (py_eq v w) eqn:E; [| reflexivity].
    rewrite <- Hin. symmetry. apply existsb_exists. exists w. auto.
  - intros Hall. destruct (existsb (py_eq v) l) eqn:E; [| reflexivity].
    apply existsb_exists in E as (w & Hw & Heq).
    rewrite (Hall w Hw) in Heq. discriminate Heq.
Qed.

Lemma py_in_bindOperation (v : value) :
  py_in v SMPPClientConfig.bindOperation_values = true <->
  In v SMPPClientConfig.bindOperation_values.
Proof.
  rewrite py_in_exists. split.
  - intros (w & Hw & Heq).
    assert (v = w) as ->; [| exact Hw].
    simpl in Hw. destruct Hw as [<- | [<- | [<- | []]]];
      apply py_eq_VStr, Heq.
  - intros Hv. exists v. split; [exact Hv |].
    simpl in Hv. destruct Hv as [<- | [<- | [<- | []]]]; reflexivity.
Qed.

Lemma bindOperation_inside_passes (kwargs : gmap string value) :
  bindOperation_inside kwargs ->
  py_in (kwargs_get kwargs "bindOperation" (VStr "transceiver"))
    SMPPClientConfig.bindOperation_values = true.
Proof.
  intros [Habs | (b & Hb & Hin)].
  - rewrite (kwargs_get_None _ _ _ Habs). reflexivity.
  - rewrite (kwargs_get_Some _ _ _ _ Hb). apply py_in_bindOperation, Hin.
Qed.

Lemma data_coding_inside_passes (kwargs : gmap string value) :
  data_coding_inside kwargs ->
  py_in (kwargs_get kwargs "data_coding" (VInt 0))
    SMPPClientConfig.data_coding_values = true.
Proof.
  intros [Habs | (v & w & Hv & Hin & Heq)].
  - rewrite (kwargs_get_None _ _ _ Habs). reflexivity.
  - rewrite (kwargs_get_Some _ _ _ _ Hv). apply py_in_exists. eauto.
Qed.

Lemma percent_s_not_tuple `{!PyRuntime} (prefix : string) (v : value) :
  is_tuple v = false -> percent_s prefix v = Ok (prefix +:+ py_str v).
Proof. destruct v; simpl; [reflexivity .. | discriminate]. Qed.

(** When every type check passes, only the two domain checks can raise. *)
Lemma first_error_domain `{!PyRuntime} (kwargs : gmap string value) :
  type_gates_pass kwargs = true ->
  first_error kwargs checks =
    first_error kwargs
      [ DomainCheck "bindOperation" (VStr "transceiver")
          SMPPClientConfig.bindOperation_values;
        DomainCheck "data_coding" (VInt 0) SMPPClientConfig.data_coding_values ].
Proof.
  unfold type_gates_pass, checks. cbn [forallb]. intros Hty.
  repeat match goal with
    | H : _ && _ = true |- _ =>
        apply andb_true_iff in H; destruct H as [? H]
    end.
  cbn [first_error run_check].
  repeat match goal with
    | H : has_type _ _ = true |- _ => rewrite H; clear H
    end.
  reflexivity.
Qed.

(** C2, as the constructor has it.  The type-checked keys are [host]
    (text), [port] (integer) and the ten timers, delays and rates
    (integer or real).  When the identifier gate and every check before
    the key pass, a supplied value of the wrong runtime type raises
    [TypeMismatch] with a message that names the key.  Text is of the
    wrong type for [port] and for every numeric key, and anything but
    text is of the wrong type for [host]; a boolean is an integer. *)
Theorem type_mismatch_names_field `{!PyRuntime} (kwargs : gmap string value) :
  (forall pre f d ty post v,
     checks = (pre ++ TypeCheck f d ty :: post)%list ->
     id_gate kwargs = None ->
     first_error kwargs pre = None ->
     kwargs !! f = Some v ->
     has_type ty v = false ->
     SMPPClientConfig.__init__ kwargs =
       Raise (TypeMismatch (f +:+ " must be " +:+ type_phrase ty)))
  /\ (forall s, has_type TInt (VStr s) = false
                /\ has_type TNumber (VStr s) = false)
  /\ (forall v, isinstance_str v = false -> has_type TStr v = false)
  /\ (forall b, has_type TInt (VBool b) = true
                /\ has_type TNumber (VBool b) = true).
Proof.
  split; [| split; [| split]].
  - intros pre f d ty post v Hchecks Hid Hpre Hv Hty.
    apply init_raises. right. split; [exact Hid |].
    rewrite Hchecks, first_error_app, Hpre. cbn [first_error run_check].
    rewrite (kwargs_get_Some _ _ _ _ Hv), Hty. reflexivity.
  - intros s. split; reflexivity.
  - intros v Hv. exact Hv.
  - intros b. split; reflexivity.
Qed.

Lemma type_mismatch_names_field_witness :
  @SMPPClientConfig.__init__ sample_runtime
    (<[ "port" := VStr "abc" ]> {[ "id" := VStr "gw1" ]}) =
    Raise (TypeMismatch "port must be an integer")
  /\ @SMPPClientConfig.__init__ sample_runtime
       (<[ "dlr_expiry" := VStr "1d" ]> {[ "id" := VStr "gw1" ]}) =
       Raise (TypeMismatch "dlr_expiry must be an integer or float").
Proof.
  split.
  - apply (proj1 (@type_mismatch_names_field sample_runtime _)
             (firstn 1 checks) "port" (VInt 2775) TInt (skipn 2 checks)
             (VStr "abc")); reflexivity.
  - apply (proj1 (@type_mismatch_names_field sample_runtime _)
             (firstn 13 checks) "dlr_expiry" (VInt 86400) TNumber [] (VStr "1d"));
      reflexivity.
Defined.

(** The claim C2 as first stated fails: a number for [username] and
    booleans for [port] and a timer are accepted and stored. *)
Lemma untyped_values_accepted :
  exists cfg,
    @SMPPClientConfig.__init__ sample_runtime
      (<[ "username" := VInt 123 ]>
         (<[ "port" := VBool true ]>
            (<[ "pduReadTimerSecs" := VBool false ]> {[ "id" := VStr "gw1" ]})))
    = Ok cfg
    /\ SMPPClientConfig.username cfg = VInt 123
    /\ SMPPClientConfig.port cfg = VBool true
    /\ SMPPClientConfig.pduReadTimerSecs cfg = VBool false.
Proof. eexists. split; [vm_compute; reflexivity |]. repeat split. Qed.

(** C3, as the constructor has it.  For an input that passes the
    identifier gate and every type check: a supplied [bindOperation] that
    is not a tuple and is not one of the three literals raises
    [UnknownValue] with the key and the value in the message; a supplied
    [data_coding] that is not a tuple and equals none of the thirteen
    codes raises [UnknownValue] with the key and the value in the
    message, provided [bindOperation] is left out or is one of its
    literals, since that check comes first; and when both are left out or
    inside their sets the object is built.  (A tuple is set apart because
    the message is built with [%], see [percent_s].) *)
Theorem domain_checks `{!PyRuntime} (kwargs : gmap string value) :
  id_gate kwargs = None ->
  type_gates_pass kwargs = true ->
  (forall v, kwargs !! "bindOperation" = Some v ->
     is_tuple v = false ->
     ~ In v SMPPClientConfig.bindOperation_values ->
     SMPPClientConfig.__init__ kwargs =
       Raise (UnknownValue ("Invalid bindOperation: " +:+ py_str v)))
  /\ (forall v, kwargs !! "data_coding" = Some v ->
        is_tuple v = false ->
        (forall w, In w SMPPClientConfig.data_coding_values -> py_eq v w = false) ->
        bindOperation_inside kwargs ->
        SMPPClientConfig.__init__ kwargs =
          Raise (UnknownValue ("Invalid data_coding: " +:+ py_str v)))
  /\ (bindOperation_inside kwargs -> data_coding_inside kwargs ->
      exists cfg, SMPPClientConfig.__init__ kwargs = Ok cfg).
Proof.
  intros Hid Hty. pose proof (first_error_domain kwargs Hty) as Hdom.
  cbn [first_error run_check] in Hdom.
  split; [| split].
  - intros v Hv Hscalar Hout. apply init_raises. right. split; [exact Hid |].
    rewrite Hdom, (kwargs_get_Some _ _ _ _ Hv).
    rewrite (percent_s_not_tuple _ v Hscalar).
    destruct (py_in v SMPPClientConfig.bindOperation_values) eqn:E;
      [| reflexivity].
    apply py_in_bindOperation in E. contradiction.
  - intros v Hv Hscalar Hout Hbind. apply init_raises. right.
    split; [exact Hid |].
    rewrite Hdom, (bindOperation_inside_passes kwargs Hbind).
    rewrite (kwargs_get_Some _ _ _ _ Hv).
    rewrite (percent_s_not_tuple _ v Hscalar).
    apply py_in_outside in Hout. rewrite Hout. reflexivity.
  - intros Hbind Hcoding. apply init_succeeds; [exact Hid |].
    rewrite Hdom, (bindOperation_inside_passes kwargs Hbind).
    rewrite (data_coding_inside_passes kwargs Hcoding). reflexivity.
Qed.

Lemma domain_checks_witness :
  @SMPPClientConfig.__init__ sample_runtime
    (<[ "bindOperation" := VStr "duplex" ]> {[ "id" := VStr "gw1" ]}) =
    Raise (UnknownValue "Invalid bindOperation: duplex")
  /\ @SMPPClientConfig.__init__ sample_runtime
       (<[ "data_coding" := VInt 11 ]> {[ "id" := VStr "gw1" ]}) =
       Raise (UnknownValue "Invalid data_coding: 11")
  /\ exists cfg,
       @SMPPClientConfig.__init__ sample_runtime
         (<[ "bindOperation" := VStr "receiver" ]>
            (<[ "data_coding" := VInt 8 ]> {[ "id" := VStr "gw1" ]})) = Ok cfg.
Proof.
  split; [| split].
  - destruct (@domain_checks sample_runtime
                (<[ "bindOperation" := VStr "duplex" ]> {[ "id" := VStr "gw1" ]}))
      as (Hbind & _); [reflexivity | reflexivity |].
    apply (Hbind (VStr "duplex")).
    + reflexivity.
    + reflexivity.
    + simpl. intros [Hin | [Hin | [Hin | []]]]; discriminate Hin.
  - destruct (@domain_checks sample_runtime
                (<[ "data_coding" := VInt 11 ]> {[ "id" := VStr "gw1" ]}))
      as (_ & Hcoding & _); [reflexivity | reflexivity |].
    apply (Hcoding (VInt 11)).
    + reflexivity.
    + reflexivity.
    + intros w Hw. simpl in Hw.
      repeat (destruct Hw as [<- | Hw]; [reflexivity |]). destruct Hw.
    + left. reflexivity.
  - destruct (@domain_checks sample_runtime
                (<[ "bindOperation" := VStr "receiver" ]>
                   (<[ "data_coding" := VInt 8 ]> {[ "id" := VStr "gw1" ]})))
      as (_ & _ & Hboth); [reflexivity | reflexivity |].
    apply Hboth.
    + right. exists (VStr "receiver"). split; [reflexivity |].
      simpl. auto.
    + right. exists (VInt 8), (VInt 8). split; [reflexivity |].
      split; [simpl; tauto | reflexivity].
Defined.

(** The claim C3 as first stated fails: this input passes the identifier
    gate and every type check, its [data_coding] is outside the list, and
    yet the error names [bindOperation], whose check comes first. *)
Lemma domain_error_names_first_field :
  let kwargs : gmap string value :=
    <[ "bindOperation" := VStr "duplex" ]>
      (<[ "data_coding" := VInt 99 ]> {[ "id" := VStr "gw1" ]}) in
  @id_gate sample_runtime kwargs = None
  /\ type_gates_pass kwargs = true
  /\ py_in (VInt 99) SMPPClientConfig.data_coding_values = false
  /\ @SMPPClientConfig.__init__ sample_runtime kwargs =
       Raise (UnknownValue "Invalid bindOperation: duplex")
  /\ @SMPPClientConfig.__init__ sample_runtime kwargs <>
       Raise (UnknownValue "Invalid data_coding: 99").
Proof.
  cbv zeta. repeat (split; [vm_compute; reflexivity |]).
  vm_compute. discriminate.
Qed.

(** Equality is by value in the membership test: [True] and [1.0] are the
    code 1, and the text ["1"] is not. *)
Example data_coding_by_value :
  py_in (VBool true) SMPPClientConfig.data_coding_values = true
  /\ py_in (VFloat (FFin 1 0)) SMPPClientConfig.data_coding_values = true
  /\ py_in (VFloat (FFin 3 (-1))) SMPPClientConfig.data_coding_values = false
  /\ py_in (VStr "1") SMPPClientConfig.data_coding_values = false.
Proof. repeat split. Qed.

(** The pattern's [$] lets one final newline through. *)
Example idcheck_final_newline :
  idcheck_match (String.append "gw1" (String (ascii_of_nat 10) EmptyString)) = true.
Proof. reflexivity. Qed.

(** * Further properties of the constructor *)

(** ** Lookups after an update *)

Lemma kwargs_get_insert (kwargs : gmap string value) (k k' : string)
    (v d : value) :
  kwargs_get (<[ k := v ]> kwargs) k' d =
    if String.eqb k k' then v else kwargs_get kwargs k' d.
Proof.
  unfold kwargs_get. destruct (String.eqb_spec k k') as [-> | Hne].
  - rewrite lookup_insert_eq. reflexivity.
  - rewrite lookup_insert_ne by exact Hne. reflexivity.
Qed.

Lemma read_key_In (k : string) :
  existsb (String.eqb k) read_keys = true -> In k read_keys.
Proof.
  intros Hk. apply existsb_exists in Hk as (k' & Hin & Heq).
  apply String.eqb_eq in Heq. subst k'. exact Hin.
Qed.

(** ** Keys that are not read *)

(** X1. The constructor looks at the 43 keys of [read_keys] and at
    nothing else: two inputs that agree on these keys have the same
    outcome, and a binding for any other key, such as [log_date_format]
    (the key read is [log_dateformat]), is ignored. *)
Theorem unread_keys_ignored `{!PyRuntime} (kwargs : gmap string value) :
  (forall kwargs' : gmap string value,
     (forall k, In k read_keys -> kwargs' !! k = kwargs !! k) ->
     SMPPClientConfig.__init__ kwargs' = SMPPClientConfig.__init__ kwargs)
  /\ (forall k v, ~ In k read_keys ->
        SMPPClientConfig.__init__ (<[ k := v ]> kwargs) =
          SMPPClientConfig.__init__ kwargs).
Proof.
  assert (forall kwargs' : gmap string value,
            (forall k, In k read_keys -> kwargs' !! k = kwargs !! k) ->
            SMPPClientConfig.__init__ kwargs' = SMPPClientConfig.__init__ kwargs)
    as Hagree.
  { intros kwargs' Hsame.
    assert (forall k d, In k read_keys ->
              kwargs_get kwargs' k d = kwargs_get kwargs k d) as Hget.
    { intros k d Hk. unfold kwargs_get. rewrite (Hsame k Hk). reflexivity. }
    unfold SMPPClientConfig.__init__. cbv zeta.
    repeat match goal with
      | |- context [kwargs_get kwargs' ?k ?d] =>
          rewrite (Hget k d) by (apply read_key_In; reflexivity)
      end.
    reflexivity. }
  split; [exact Hagree |].
  intros k v Hk. apply Hagree. intros k' Hk'.
  apply lookup_insert_ne. intros ->. contradiction.
Qed.

Lemma unread_keys_ignored_witness :
  @SMPPClientConfig.__init__ sample_runtime
    (<[ "log_date_format" := VStr "%H:%M" ]> {[ "id" := VStr "gw1" ]}) =
    Ok (defaults "gw1").
Proof.
  rewrite (proj2 (@unread_keys_ignored sample_runtime {[ "id" := VStr "gw1" ]})
             "log_date_format" (VStr "%H:%M")).
  - reflexivity.
  - simpl. intros Hin.
    repeat (destruct Hin as [Hin | Hin]; [discriminate Hin |]). exact Hin.
Defined.

(** ** First failure, and what each error tells *)

Lemma id_gate_Some `{!PyRuntime} (kwargs : gmap string value) (e : exn) :
  id_gate kwargs = Some e ->
  (e = ConfigUndefinedIdError "SMPPClientConfig must have an id"
   /\ (kwargs !! "id" = None \/ kwargs !! "id" = Some VNone))
  \/ (e = ConfigInvalidIdError "SMPPClientConfig id syntax is invalid"
      /\ exists v, kwargs !! "id" = Some v /\ v <> VNone
                   /\ idcheck_match (py_str v) = false).
Proof.
  unfold id_gate, kwargs_get. intros Hgate.
  destruct (kwargs !! "id") as [v |] eqn:Hid; simpl in Hgate.
  - destruct (py_eq v VNone) eqn:Hnone.
    + apply py_eq_None in Hnone. subst v. left.
      split; [congruence | right; reflexivity].
    + destruct (idcheck_match (py_str v)) eqn:Hm; simpl in Hgate;
        [discriminate Hgate |].
      right. split; [congruence |]. exists v.
      split; [reflexivity |]. split; [| exact Hm].
      intros ->. discriminate Hnone.
  - left. split; [congruence | left; reflexivity].
Qed.

Lemma first_error_In `{!PyRuntime} (kwargs : gmap string value)
    (cs : list check) (e : exn) :
  first_error kwargs cs = Some e ->
  exists c, In c cs /\ run_check kwargs c = Some e.
Proof.
  induction cs as [| c cs IH]; simpl; [discriminate |].
  destruct (run_check kwargs c) as [e' |] eqn:Hc.
  - intros [= ->]. exists c. auto.
  - intros Hrest. destruct (IH Hrest) as (c' & Hin & Hc'). exists c'. auto.
Qed.

Lemma checks_defaults_pass (c : check) :
  In c checks -> default_passes c = true.
Proof.
  unfold checks. simpl. intros Hin.
  repeat (destruct Hin as [<- | Hin]; [reflexivity |]). destruct Hin.
Qed.

Lemma percent_s_Ok `{!PyRuntime} (prefix : string) (v : value) (msg : string) :
  percent_s prefix v = Ok msg <-> formats_as prefix v msg.
Proof.
  unfold formats_as. split.
  - destruct v as [| b | n | f | t | c | [| x [| y l]]]; simpl; intros [= <-];
      try (left; split; reflexivity).
    right. exists x. split; reflexivity.
  - intros [[Hscalar ->] | (x & -> & ->)]; [| reflexivity].
    apply percent_s_not_tuple, Hscalar.
Qed.

Lemma percent_s_Raise `{!PyRuntime} (prefix : string) (v : value) (e : exn) :
  percent_s prefix v = Raise e -> exists m, e = TypeError m.
Proof.
  destruct v as [| b | n | f | t | c | [| x [| y l]]]; simpl; intros [= <-];
    eexists; reflexivity.
Qed.

(** A check that fails found a supplied value, since its default passes. *)
Lemma run_check_fails `{!PyRuntime} (kwargs : gmap string value) (c : check)
    (e : exn) :
  In c checks -> run_check kwargs c = Some e ->
  match c with
  | TypeCheck f d ty =>
      exists v, kwargs !! f = Some v /\ has_type ty v = false
                /\ e = TypeMismatch (f +:+ " must be " +:+ type_phrase ty)
  | DomainCheck f d allowed =>
      exists v, kwargs !! f = Some v /\ py_in v allowed = false
                /\ ((exists msg, e = UnknownValue msg
                       /\ formats_as ("Invalid " +:+ f +:+ ": ") v msg)
                    \/ exists m, e = TypeError m)
  end.
Proof.
  intros Hin Hrun. pose proof (checks_defaults_pass c Hin) as Hdef.
  destruct c as [f d ty | f d allowed]; simpl in Hrun, Hdef;
    unfold kwargs_get in Hrun; destruct (kwargs !! f) as [v |]; simpl in Hrun.
  - destruct (has_type ty v) eqn:Hty; [discriminate Hrun |].
    exists v. repeat split; congruence.
  - rewrite Hdef in Hrun. discriminate Hrun.
  - destruct (py_in v allowed) eqn:Hv; [discriminate Hrun |].
    exists v. split; [reflexivity |]. split; [exact Hv |].
    destruct (percent_s _ v) as [msg | e'] eqn:Hfmt; injection Hrun as <-.
    + left. exists msg. split; [reflexivity |]. apply percent_s_Ok, Hfmt.
    + right. apply (percent_s_Raise _ _ _ Hfmt).
  - rewrite Hdef in Hrun. discriminate Hrun.
Qed.

(** X2. The outcome of the constructor is that of the first test that
    fails, in the order identifier, [host], [port], the seven timers and
    delays, [bindOperation], [data_coding], [requeue_delay],
    [submit_sm_throughput], [dlr_expiry]: it raises [e] exactly when the
    identifier gate gives [e], or lets the input through and [e] is the
    error of the first failing check; and it builds an object exactly
    when no test fails. *)
Theorem first_failure_decides `{!PyRuntime} (kwargs : gmap string value) :
  (forall e,
     SMPPClientConfig.__init__ kwargs = Raise e <->
     id_gate kwargs = Some e
     \/ (id_gate kwargs = None /\ first_error kwargs checks = Some e))
  /\ ((exists cfg, SMPPClientConfig.__init__ kwargs = Ok cfg) <->
      id_gate kwargs = None /\ first_error kwargs checks = None).
Proof.
  pose proof (init_outcome kwargs) as Hout.
  destruct (id_gate kwargs) as [e0 |];
    [| destruct (first_error kwargs checks) as [e1 |]].
  - split.
    + intros e. rewrite Hout. split.
      * intros [= ->]. left. reflexivity.
      * intros [[= ->] | [Hno _]]; [reflexivity | discriminate Hno].
    + rewrite Hout. split.
      * intros (cfg & Hcfg). discriminate Hcfg.
      * intros [Hno _]. discriminate Hno.
  - split.
    + intros e. rewrite Hout. split.
      * intros [= ->]. right. split; reflexivity.
      * intros [Hno | [_ [= ->]]]; [discriminate Hno | reflexivity].
    + rewrite Hout. split.
      * intros (cfg & Hcfg). discriminate Hcfg.
      * intros [_ Hno]. discriminate Hno.
  - destruct Hout as (cfg & Hcfg). split.
    + intros e. rewrite Hcfg. split.
      * discriminate.
      * intros [Hno | [_ Hno]]; discriminate Hno.
    + split; [auto | eauto].
Qed.

Lemma first_failure_decides_witness :
  @SMPPClientConfig.__init__ sample_runtime
    (<[ "host" := VInt 7 ]>
       (<[ "port" := VStr "abc" ]>
          (<[ "data_coding" := VInt 99 ]> {[ "id" := VStr "gw1" ]}))) =
    Raise (TypeMismatch "host must be a string").
Proof.
  apply (proj1 (@first_failure_decides sample_runtime _)).
  right. split; reflexivity.
Defined.

(** X3. An identifier error tells the truth about the input:
    [ConfigUndefinedIdError] is raised only when [id] is missing or
    [None], and [ConfigInvalidIdError] only when an [id] other than
    [None] is supplied whose text form does not match the pattern. *)
Theorem identifier_errors_sound `{!PyRuntime} (kwargs : gmap string value) :
  (forall msg,
     SMPPClientConfig.__init__ kwargs = Raise (ConfigUndefinedIdError msg) ->
     kwargs !! "id" = None \/ kwargs !! "id" = Some VNone)
  /\ (forall msg,
        SMPPClientConfig.__init__ kwargs = Raise (ConfigInvalidIdError msg) ->
        exists v, kwargs !! "id" = Some v /\ v <> VNone
                  /\ idcheck_match (py_str v) = false).
Proof.
  pose proof (init_outcome kwargs) as Hout.
  assert (forall e, id_gate kwargs = None ->
            SMPPClientConfig.__init__ kwargs = Raise e ->
            exists c, In c checks /\ run_check kwargs c = Some e) as Hlater.
  { intros e Hgate Hraise. rewrite Hgate in Hout.
    destruct (first_error kwargs checks) as [e1 |] eqn:Hfirst.
    - rewrite Hout in Hraise. injection Hraise as ->.
      apply first_error_In, Hfirst.
    - destruct Hout as (cfg & Hcfg). congruence. }
  split; intros msg Hraise.
  - destruct (id_gate kwargs) as [e0 |] eqn:Hgate.
    + rewrite Hout in Hraise. injection Hraise as ->.
      destruct (id_gate_Some _ _ Hgate) as [[_ Hid] | [Heq _]];
        [exact Hid | discriminate Heq].
    + destruct (Hlater _ eq_refl Hraise) as (c & Hin & Hrun).
      pose proof (run_check_fails _ _ _ Hin Hrun) as Hc.
      destruct c as [f d ty | f d allowed].
      * destruct Hc as (v & _ & _ & Heq). discriminate Heq.
      * destruct Hc as (v & _ & _ & [(m & Heq & _) | (m & Heq)]);
          discriminate Heq.
  - destruct (id_gate kwargs) as [e0 |] eqn:Hgate.
    + rewrite Hout in Hraise. injection Hraise as ->.
      destruct (id_gate_Some _ _ Hgate) as [[Heq _] | [_ Hid]];
        [discriminate Heq | exact Hid].
    + destruct (Hlater _ eq_refl Hraise) as (c & Hin & Hrun).
      pose proof (run_check_fails _ _ _ Hin Hrun) as Hc.
      destruct c as [f d ty | f d allowed].
      * destruct Hc as (v & _ & _ & Heq). discriminate Heq.
      * destruct Hc as (v & _ & _ & [(m & Heq & _) | (m & Heq)]);
          discriminate Heq.
Qed.

Lemma identifier_errors_sound_witness :
  exists v, ({[ "id" := VStr "ab" ]} : gmap string value) !! "id" = Some v
            /\ v <> VNone
            /\ @idcheck_match (@py_str sample_runtime v) = false.
Proof.
  apply (proj2 (@identifier_errors_sound sample_runtime {[ "id" := VStr "ab" ]})
           "SMPPClientConfig id syntax is invalid").
  reflexivity.
Defined.

Lemma raise_from_check `{!PyRuntime} (kwargs : gmap string value) (e : exn) :
  SMPPClientConfig.__init__ kwargs = Raise e ->
  id_gate kwargs = Some e
  \/ exists c, In c checks /\ run_check kwargs c = Some e.
Proof.
  pose proof (init_outcome kwargs) as Hout. intros Hraise.
  destruct (id_gate kwargs) as [e0 |].
  - left. congruence.
  - right. destruct (first_error kwargs checks) as [e1 |] eqn:Hfirst.
    + rewrite Hout in Hraise. injection Hraise as ->.
      apply first_error_In, Hfirst.
    + destruct Hout as (cfg & Hcfg). congruence.
Qed.

(** X4. A [TypeMismatch] tells the truth about the input: it is raised
    only when one of the twelve type-checked keys was supplied with a
    value of the wrong runtime type, and its message names that key.  A
    key left out never causes it. *)
Theorem type_mismatch_sound `{!PyRuntime} (kwargs : gmap string value)
    (msg : string) :
  SMPPClientConfig.__init__ kwargs = Raise (TypeMismatch msg) ->
  exists f d ty v,
    In (TypeCheck f d ty) checks
    /\ kwargs !! f = Some v
    /\ has_type ty v = false
    /\ msg = f +:+ " must be " +:+ type_phrase ty.
Proof.
  intros Hraise. destruct (raise_from_check _ _ Hraise) as [Hgate | Hcheck].
  - destruct (id_gate_Some _ _ Hgate) as [[Heq _] | [Heq _]]; discriminate Heq.
  - destruct Hcheck as (c & Hin & Hrun).
    pose proof (run_check_fails _ _ _ Hin Hrun) as Hc.
    destruct c as [f d ty | f d allowed].
    + destruct Hc as (v & Hv & Hbad & Heq).
      exists f, d, ty, v. repeat split; congruence.
    + destruct Hc as (v & _ & _ & [(m & Heq & _) | (m & Heq)]);
        discriminate Heq.
Qed.

Lemma type_mismatch_sound_witness :
  exists f d ty v,
    In (TypeCheck f d ty) checks
    /\ (<[ "requeue_delay" := VStr "2m" ]> {[ "id" := VStr "gw1" ]}
          : gmap string value) !! f = Some v
    /\ has_type ty v = false
    /\ "requeue_delay must be an integer or float" =
         f +:+ " must be " +:+ type_phrase ty.
Proof.
  apply (@type_mismatch_sound sample_runtime
           (<[ "requeue_delay" := VStr "2m" ]> {[ "id" := VStr "gw1" ]})).
  reflexivity.
Defined.

(** X5. An [UnknownValue] tells the truth about the input: it is raised
    only for a supplied [bindOperation] that is none of the three
    literals, or for a supplied [data_coding] that equals none of the
    listed codes.  Its message holds the key and the rejected value as
    [%s] formats it: the text form of the value, or, when the value is a
    one-item tuple, the text form of that item. *)
Theorem unknown_value_sound `{!PyRuntime} (kwargs : gmap string value)
    (msg : string) :
  SMPPClientConfig.__init__ kwargs = Raise (UnknownValue msg) ->
  (exists v, kwargs !! "bindOperation" = Some v
             /\ ~ In v SMPPClientConfig.bindOperation_values
             /\ formats_as "Invalid bindOperation: " v msg)
  \/ (exists v, kwargs !! "data_coding" = Some v
                /\ (forall w, In w SMPPClientConfig.data_coding_values ->
                              py_eq v w = false)
                /\ formats_as "Invalid data_coding: " v msg).
Proof.
  intros Hraise. destruct (raise_from_check _ _ Hraise) as [Hgate | Hcheck].
  - destruct (id_gate_Some _ _ Hgate) as [[Heq _] | [Heq _]]; discriminate Heq.
  - destruct Hcheck as (c & Hin & Hrun).
    pose proof (run_check_fails _ _ _ Hin Hrun) as Hc.
    unfold checks in Hin. simpl in Hin.
    repeat (destruct Hin as [<- | Hin];
            [try (destruct Hc as (v & _ & _ & Heq); discriminate Heq) |]);
      [| | destruct Hin].
    + left. destruct Hc as (v & Hv & Hout & [(m & Heq & Hfmt) | (m & Heq)]);
        [| discriminate Heq].
      injection Heq as ->. exists v.
      split; [exact Hv |]. split; [| exact Hfmt].
      intros Hin. apply py_in_bindOperation in Hin. congruence.
    + right. destruct Hc as (v & Hv & Hout & [(m & Heq & Hfmt) | (m & Heq)]);
        [| discriminate Heq].
      injection Heq as ->. exists v.
      split; [exact Hv |]. split; [| exact Hfmt].
      apply py_in_outside, Hout.
Qed.

Lemma unknown_value_sound_witness :
  (exists v, (<[ "data_coding" := VInt 12 ]> {[ "id" := VStr "gw1" ]}
                : gmap string value) !! "bindOperation" = Some v
             /\ ~ In v SMPPClientConfig.bindOperation_values
             /\ @formats_as sample_runtime "Invalid bindOperation: " v
                  "Invalid data_coding: 12")
  \/ (exists v, (<[ "data_coding" := VInt 12 ]> {[ "id" := VStr "gw1" ]}
                   : gmap string value) !! "data_coding" = Some v
                /\ (forall w, In w SMPPClientConfig.data_coding_values ->
                              py_eq v w = false)
                /\ @formats_as sample_runtime "Invalid data_coding: " v
                     "Invalid data_coding: 12").
Proof.
  apply (@unknown_value_sound sample_runtime
           (<[ "data_coding" := VInt 12 ]> {[ "id" := VStr "gw1" ]})).
  reflexivity.
Defined.

(** ** What a built object holds *)

(** X6. Every object the constructor returns satisfies what its checks
    test: [id] matches the identifier pattern, [host] is text, [port] is
    an integer, the ten timers, delays and rates are integers or reals,
    [bindOperation] is one of the three literals and [data_coding] equals
    one of the listed codes. *)
Theorem built_object_invariants `{!PyRuntime} (kwargs : gmap string value)
    (cfg : SMPPClientConfig.t) :
  SMPPClientConfig.__init__ kwargs = Ok cfg ->
  idcheck_match (SMPPClientConfig.id cfg) = true
  /\ isinstance_str (SMPPClientConfig.host cfg) = true
  /\ isinstance_int (SMPPClientConfig.port cfg) = true
  /\ has_type TNumber (SMPPClientConfig.sessionInitTimerSecs cfg) = true
  /\ has_type TNumber (SMPPClientConfig.enquireLinkTimerSecs cfg) = true
  /\ has_type TNumber (SMPPClientConfig.inactivityTimerSecs cfg) = true
  /\ has_type TNumber (SMPPClientConfig.responseTimerSecs cfg) = true
  /\ has_type TNumber (SMPPClientConfig.reconnectOnConnectionLossDelay cfg) = true
  /\ has_type TNumber (SMPPClientConfig.reconnectOnConnectionFailureDelay cfg)
     = true
  /\ has_type TNumber (SMPPClientConfig.pduReadTimerSecs cfg) = true
  /\ In (SMPPClientConfig.bindOperation cfg) SMPPClientConfig.bindOperation_values
  /\ (exists w, In w SMPPClientConfig.data_coding_values
                /\ py_eq (SMPPClientConfig.data_coding cfg) w = true)
  /\ has_type TNumber (SMPPClientConfig.requeue_delay cfg) = true
  /\ has_type TNumber (SMPPClientConfig.submit_sm_throughput cfg) = true
  /\ has_type TNumber (SMPPClientConfig.dlr_expiry cfg) = true.
Proof.
  intros Hok. init_inv Hok.
  cbn [SMPPClientConfig.id SMPPClientConfig.host SMPPClientConfig.port
       SMPPClientConfig.sessionInitTimerSecs SMPPClientConfig.enquireLinkTimerSecs
       SMPPClientConfig.inactivityTimerSecs SMPPClientConfig.responseTimerSecs
       SMPPClientConfig.reconnectOnConnectionLossDelay
       SMPPClientConfig.reconnectOnConnectionFailureDelay
       SMPPClientConfig.pduReadTimerSecs SMPPClientConfig.bindOperation
       SMPPClientConfig.data_coding SMPPClientConfig.requeue_delay
       SMPPClientConfig.submit_sm_throughput SMPPClientConfig.dlr_expiry
       has_type].
  repeat match goal with
    | H : negb _ && negb _ = false |- _ =>
        rewrite <- negb_orb in H; apply negb_false_iff in H
    | H : negb _ = false |- _ => apply negb_false_iff in H
    end.
  repeat match goal with
    | |- _ /\ _ => split
    end; try assumption.
  - apply py_in_bindOperation. assumption.
  - apply py_in_exists. assumption.
Qed.

Lemma built_object_invariants_witness :
  idcheck_match (SMPPClientConfig.id (defaults "gw1")) = true
  /\ In (SMPPClientConfig.bindOperation (defaults "gw1"))
       SMPPClientConfig.bindOperation_values.
Proof.
  destruct (@built_object_invariants sample_runtime {[ "id" := VStr "gw1" ]}
              (defaults "gw1"))
    as (Hid & _ & _ & _ & _ & _ & _ & _ & _ & _ & Hbind & _);
    [reflexivity |].
  exact (conj Hid Hbind).
Defined.

(** X7. A built object holds, for each of the 42 keys other than [id],
    the supplied value as it was given (no conversion, no clamping, even
    for [None]) in the attribute of that key, and the default when the
    key was left out.  The attribute [log_date_format] is filled from the
    key [log_dateformat]. *)
Theorem attributes_supplied_or_default `{!PyRuntime}
    (kwargs : gmap string value) (cfg : SMPPClientConfig.t) :
  SMPPClientConfig.__init__ kwargs = Ok cfg ->
  forall k attr, In (k, attr) key_attribute ->
    attr cfg =
      match kwargs !! k with
      | Some v => v
      | None => attr (defaults (SMPPClientConfig.id cfg))
      end.
Proof.
  intros Hok. init_inv Hok. intros k attr Hin.
  unfold key_attribute in Hin. simpl in Hin.
  repeat (destruct Hin as [[= <- <-] | Hin];
          [cbn; unfold kwargs_get; destruct (kwargs !! _); reflexivity |]).
  destruct Hin.
Qed.

Lemma attributes_supplied_or_default_witness :
  exists cfg,
    @SMPPClientConfig.__init__ sample_runtime
      (<[ "log_dateformat" := VStr "%H:%M" ]>
         (<[ "username" := VNone ]> {[ "id" := VStr "gw1" ]})) = Ok cfg
    /\ SMPPClientConfig.log_date_format cfg = VStr "%H:%M"
    /\ SMPPClientConfig.username cfg = VNone
    /\ SMPPClientConfig.password cfg = VStr "password".
Proof.
  destruct (@SMPPClientConfig.__init__ sample_runtime
      (<[ "log_dateformat" := VStr "%H:%M" ]>
         (<[ "username" := VNone ]> {[ "id" := VStr "gw1" ]})))
    as [cfg | e] eqn:Hrun; [| vm_compute in Hrun; discriminate Hrun].
  exists cfg. split; [reflexivity |].
  pose proof (@attributes_supplied_or_default sample_runtime _ cfg Hrun) as Hattr.
  split; [| split].
  - rewrite (Hattr "log_dateformat" SMPPClientConfig.log_date_format);
      [reflexivity | simpl; tauto].
  - rewrite (Hattr "username" SMPPClientConfig.username);
      [reflexivity | simpl; tauto].
  - rewrite (Hattr "password" SMPPClientConfig.password);
      [reflexivity | simpl; tauto].
Defined.

(** ** The data coding as an integer *)

Lemma py_eq_VInt (n k : Z) : py_eq (VInt n) (VInt k) = (n =? k)%Z.
Proof.
  cbn [py_eq as_number float_eqb]. rewrite Z.min_id, Z.sub_diag.
  change (2 ^ 0)%Z with 1%Z. rewrite !Z.mul_1_r. reflexivity.
Qed.

Lemma py_in_data_coding_int (n : Z) :
  py_in (VInt n) SMPPClientConfig.data_coding_values = true <->
  (0 <= n <= 10 \/ n = 13 \/ n = 14)%Z.
Proof.
  unfold py_in, SMPPClientConfig.data_coding_values. cbn [existsb].
  rewrite !py_eq_VInt, !orb_true_iff, !Z.eqb_eq. lia.
Qed.

(** X8. For an input that passes the identifier gate and the type checks
    and whose [bindOperation] is left out or valid, an integer
    [data_coding] is accepted exactly when it lies in 0..10 or is 13 or
    14: the codes 11 and 12, negative numbers and everything from 15 on
    are refused. *)
Theorem data_coding_integer_range `{!PyRuntime} (kwargs : gmap string value)
    (n : Z) :
  id_gate kwargs = None ->
  type_gates_pass kwargs = true ->
  bindOperation_inside kwargs ->
  kwargs !! "data_coding" = Some (VInt n) ->
  (exists cfg, SMPPClientConfig.__init__ kwargs = Ok cfg) <->
  (0 <= n <= 10 \/ n = 13 \/ n = 14)%Z.
Proof.
  intros Hid Hty Hbind Hn.
  pose proof (init_outcome kwargs) as Hout.
  rewrite Hid, (first_error_domain kwargs Hty) in Hout.
  cbn [first_error run_check] in Hout.
  rewrite (bindOperation_inside_passes kwargs Hbind) in Hout.
  rewrite (kwargs_get_Some _ _ _ _ Hn) in Hout.
  rewrite <- py_in_data_coding_int.
  destruct (py_in (VInt n) SMPPClientConfig.data_coding_values).
  - split; [reflexivity | intros _; exact Hout].
  - split; [| discriminate]. intros (cfg & Hcfg). congruence.
Qed.

Lemma data_coding_integer_range_witness :
  (exists cfg,
     @SMPPClientConfig.__init__ sample_runtime
       (<[ "data_coding" := VInt 13 ]> {[ "id" := VStr "gw1" ]}) = Ok cfg)
  /\ ~ (exists cfg,
          @SMPPClientConfig.__init__ sample_runtime
            (<[ "data_coding" := VInt 12 ]> {[ "id" := VStr "gw1" ]}) = Ok cfg).
Proof.
  split.
  - apply (@data_coding_integer_range sample_runtime
             (<[ "data_coding" := VInt 13 ]> {[ "id" := VStr "gw1" ]}) 13);
      [reflexivity | reflexivity | left; reflexivity | reflexivity | lia].
  - intros Hok.
    apply (@data_coding_integer_range sample_runtime
             (<[ "data_coding" := VInt 12 ]> {[ "id" := VStr "gw1" ]}) 12) in Hok;
      [lia | reflexivity | reflexivity | left; reflexivity | reflexivity].
Defined.

(** ** The identifier and what is derived from it *)

(** X9. The identifier counts by its text form only: two identifiers
    other than [None] with the same text form, such as the integer 12345
    and the text ["12345"], give the same outcome with any other keys. *)
Theorem identifier_by_text_form `{!PyRuntime} (kwargs : gmap string value)
    (v w : value) :
  v <> VNone -> w <> VNone -> py_str v = py_str w ->
  SMPPClientConfig.__init__ (<[ "id" := v ]> kwargs) =
    SMPPClientConfig.__init__ (<[ "id" := w ]> kwargs).
Proof.
  intros Hv Hw Hstr. unfold SMPPClientConfig.__init__. cbv zeta.
  rewrite !kwargs_get_insert. cbn [String.eqb Ascii.eqb Bool.eqb].
  rewrite (py_eq_None_false v Hv), (py_eq_None_false w Hw), Hstr.
  reflexivity.
Qed.

Lemma identifier_by_text_form_witness :
  @SMPPClientConfig.__init__ sample_runtime
    (<[ "id" := VInt 12345 ]> {[ "host" := VStr "smsc" ]}) =
  @SMPPClientConfig.__init__ sample_runtime
    (<[ "id" := VStr "12345" ]> {[ "host" := VStr "smsc" ]}).
Proof.
  apply (@identifier_by_text_form sample_runtime); [discriminate | discriminate |].
  reflexivity.
Defined.

Lemma app_cons (c : ascii) (a s : string) :
  String c a +:+ s = String c (a +:+ s).
Proof. reflexivity. Qed.

Lemma app_length (a s : string) :
  String.length (a +:+ s) = (String.length a + String.length s)%nat.
Proof.
  induction a as [| c a IH]; [reflexivity |].
  rewrite app_cons. simpl. rewrite IH. reflexivity.
Qed.

Lemma app_inj_r (s a b : string) : a +:+ s = b +:+ s -> a = b.
Proof.
  revert b. induction a as [| c a IH]; intros [| c' b] Heq.
  - reflexivity.
  - apply (f_equal String.length) in Heq. rewrite !app_length in Heq.
    simpl in Heq. lia.
  - apply (f_equal String.length) in Heq. rewrite !app_length in Heq.
    simpl in Heq. lia.
  - rewrite !app_cons in Heq. injection Heq as -> Heq.
    rewrite (IH b Heq). reflexivity.
Qed.

(** X10. Two built objects whose log file was derived (no [log_file]
    supplied) share the log file only if they have the same identifier:
    distinct identifiers never write to the same default log file. *)
Theorem default_log_file_injective `{!PyRuntime}
    (kwargs1 kwargs2 : gmap string value) (cfg1 cfg2 : SMPPClientConfig.t) :
  SMPPClientConfig.__init__ kwargs1 = Ok cfg1 ->
  SMPPClientConfig.__init__ kwargs2 = Ok cfg2 ->
  kwargs1 !! "log_file" = None ->
  kwargs2 !! "log_file" = None ->
  SMPPClientConfig.log_file cfg1 = SMPPClientConfig.log_file cfg2 ->
  SMPPClientConfig.id cfg1 = SMPPClientConfig.id cfg2.
Proof.
  intros Hok1 Hok2 Habs1 Habs2. init_inv Hok1. init_inv Hok2.
  cbn [SMPPClientConfig.log_file SMPPClientConfig.id].
  rewrite (kwargs_get_None kwargs1 "log_file" _ Habs1).
  rewrite (kwargs_get_None kwargs2 "log_file" _ Habs2).
  intros [= Heq]. apply String.app_inj in Heq.
  apply app_inj_r in Heq. exact Heq.
Qed.

Lemma default_log_file_injective_witness :
  exists cfg1 cfg2,
    @SMPPClientConfig.__init__ sample_runtime {[ "id" := VStr "12345" ]} = Ok cfg1
    /\ @SMPPClientConfig.__init__ sample_runtime
         (<[ "port" := VInt 2776 ]> {[ "id" := VInt 12345 ]}) = Ok cfg2
    /\ SMPPClientConfig.id cfg1 = SMPPClientConfig.id cfg2.
Proof.
  destruct (@SMPPClientConfig.__init__ sample_runtime {[ "id" := VStr "12345" ]})
    as [cfg1 | e] eqn:Hrun1; [| vm_compute in Hrun1; discriminate Hrun1].
  destruct (@SMPPClientConfig.__init__ sample_runtime
              (<[ "port" := VInt 2776 ]> {[ "id" := VInt 12345 ]}))
    as [cfg2 | e] eqn:Hrun2; [| vm_compute in Hrun2; discriminate Hrun2].
  exists cfg1, cfg2. split; [reflexivity |]. split; [reflexivity |].
  apply (@default_log_file_injective sample_runtime _ _ cfg1 cfg2 Hrun1 Hrun2);
    [reflexivity | reflexivity |].
  vm_compute in Hrun1. vm_compute in Hrun2.
  injection Hrun1 as <-. injection Hrun2 as <-. reflexivity.
Defined.

(** * Further properties of the key translation table *)

Lemma translate_Some (k v : string) :
  translate k = Some v <-> In (k, v) SMPPClientConfigMap_items.
Proof.
  unfold translate, SMPPClientConfigMap.
  rewrite <- list_elem_of_In. symmetry.
  apply elem_of_list_to_map, SMPPClientConfigMap_keys_NoDup.
Qed.

Lemma SMPPClientConfigMap_values_NoDup :
  NoDup (map snd SMPPClientConfigMap_items).
Proof.
  apply (bool_decide_eq_true_1 (NoDup (map snd SMPPClientConfigMap_items))).
  vm_compute. reflexivity.
Qed.

Lemma NoDup_snd_inj {A B : Type} (l : list (A * B)) :
  NoDup (map snd l) ->
  forall a1 a2 b, In (a1, b) l -> In (a2, b) l -> a1 = a2.
Proof.
  induction l as [| [a b0] l IH]; intros Hnd a1 a2 b H1 H2; [destruct H1 |].
  simpl in Hnd. inversion Hnd as [| ? ? Hnotin Hnd']; subst.
  assert (forall a, In (a, b0) l -> False) as Hfresh.
  { intros a' Ha'. apply Hnotin, list_elem_of_In.
    change b0 with (snd (a', b0)). apply in_map, Ha'. }
  destruct H1 as [Heq1 | H1], H2 as [Heq2 | H2].
  - congruence.
  - injection Heq1 as -> ->. destruct (Hfresh _ H2).
  - injection Heq2 as -> ->. destruct (Hfresh _ H1).
  - exact (IH Hnd' a1 a2 b H1 H2).
Qed.

(** X11. The table can be read both ways: no two user-facing keys are
    translated to the same attribute name. *)
Theorem translate_injective (k1 k2 v : string) :
  translate k1 = Some v -> translate k2 = Some v -> k1 = k2.
Proof.
  rewrite !translate_Some.
  apply (NoDup_snd_inj _ SMPPClientConfigMap_values_NoDup).
Qed.

Lemma translate_injective_witness : translate "bind_to" <> translate "bind".
Proof.
  intros Hsame.
  assert ("bind_to" = "bind") as Heq.
  { apply (translate_injective "bind_to" "bind" "bindOperation");
      [rewrite Hsame |]; reflexivity. }
  discriminate Heq.
Defined.

(** The constructor keys that no user-facing key is translated to. *)
Lemma keys_without_alias_In (key : string) :
  In key read_keys ->
  In key (map snd SMPPClientConfigMap_items)
  \/ In key [ "log_format"; "log_dateformat"; "useSSL"; "SSLCertificateFile";
              "service_type"; "schedule_delivery_time" ].
Proof.
  unfold read_keys. simpl. intros Hin.
  repeat (destruct Hin as [<- | Hin]; [tauto |]). destruct Hin.
Qed.

(** X12. The table and the constructor fit together: every name the
    table translates to is a key the constructor reads; and of the 43
    keys the constructor reads, exactly six cannot be reached through the
    table: [log_format], [log_dateformat], [useSSL],
    [SSLCertificateFile], [service_type] and [schedule_delivery_time]. *)
Theorem translate_reaches_constructor_keys :
  (forall k v, translate k = Some v -> In v read_keys)
  /\ (forall key, In key read_keys ->
        (exists k, translate k = Some key) <->
        ~ In key [ "log_format"; "log_dateformat"; "useSSL";
                   "SSLCertificateFile"; "service_type";
                   "schedule_delivery_time" ]).
Proof.
  split.
  - intros k v Hk. apply translate_Some in Hk.
    unfold SMPPClientConfigMap_items in Hk. simpl in Hk.
    repeat (destruct Hk as [[= <- <-] | Hk];
            [apply read_key_In; reflexivity |]).
    destruct Hk.
  - intros key Hkey. split.
    + intros (k & Hk) Hsix. apply translate_Some in Hk.
      simpl in Hsix.
      repeat (destruct Hsix as [<- | Hsix];
              [unfold SMPPClientConfigMap_items in Hk; simpl in Hk;
               repeat (destruct Hk as [Hk | Hk]; [discriminate Hk |]);
               exact Hk |]).
      exact Hsix.
    + intros Hsix. destruct (keys_without_alias_In key Hkey) as [Hin | Hin];
        [| contradiction].
      apply in_map_iff in Hin as ([k v] & Hv & Hin). simpl in Hv. subst v.
      exists k. apply translate_Some, Hin.
Qed.

Lemma translate_reaches_constructor_keys_witness :
  In "sessionInitTimerSecs" read_keys
  /\ (exists k, translate k = Some "data_coding")
  /\ ~ (exists k, translate k = Some "useSSL").
Proof.
  destruct translate_reaches_constructor_keys as (Hread & Hreach).
  split; [| split].
  - apply (Hread "bind_to" "sessionInitTimerSecs"). reflexivity.
  - apply (Hreach "data_coding").
    + apply read_key_In. reflexivity.
    + simpl. intros Hin.
      repeat (destruct Hin as [Hin | Hin]; [discriminate Hin |]). exact Hin.
  - intros Hex. apply (Hreach "useSSL") in Hex.
    + apply Hex. simpl. tauto.
    + apply read_key_In. reflexivity.
Defined.

(** * Further properties of the service configuration *)

Lemma stored_insert_ne (store : gmap string (gmap string string))
    (section section' key : string) (sec : gmap string string) :
  section <> section' ->
  stored (<[ section := sec ]> store) section' key = stored store section' key.
Proof.
  intros Hne. unfold stored. rewrite lookup_insert_ne by exact Hne.
  reflexivity.
Qed.

(** X13. The two section names do not mix: whatever is put in section
    [service-smppclient] leaves [log_file], [log_format] and
    [log_date_format] as they were, and whatever is put in section
    [services-smppclient] leaves [log_level] as it was.  (The store is
    read through [ConfigFile_get].) *)
Theorem service_sections_apart (store : gmap string (gmap string string))
    (sec : gmap string string) :
  let cfg := SMPPClientServiceConfig.__init__ store in
  (let cfg' :=
     SMPPClientServiceConfig.__init__ (<[ "service-smppclient" := sec ]> store) in
   SMPPClientServiceConfig.log_file cfg' = SMPPClientServiceConfig.log_file cfg
   /\ SMPPClientServiceConfig.log_format cfg' =
        SMPPClientServiceConfig.log_format cfg
   /\ SMPPClientServiceConfig.log_date_format cfg' =
        SMPPClientServiceConfig.log_date_format cfg)
  /\ SMPPClientServiceConfig.log_level
       (SMPPClientServiceConfig.__init__
          (<[ "services-smppclient" := sec ]> store)) =
     SMPPClientServiceConfig.log_level cfg.
Proof.
  cbv zeta. unfold SMPPClientServiceConfig.__init__.
  cbn [SMPPClientServiceConfig.log_level SMPPClientServiceConfig.log_file
       SMPPClientServiceConfig.log_format SMPPClientServiceConfig.log_date_format].
  rewrite !ConfigFile_get_stored.
  rewrite !stored_insert_ne by discriminate.
  repeat split.
Qed.

(** * The identifier pattern, exactly *)

Lemma repeat_class_complete (cls : ascii -> bool) (hi : nat) :
  forall (lo : nat) (body rest : string),
    (lo <= String.length body <= hi)%nat ->
    (forall c, In c (list_ascii_of_string body) -> cls c = true) ->
    at_end rest = true ->
    repeat_class cls lo hi (body +:+ rest) at_end = true.
Proof.
  induction hi as [| hi IH]; intros lo body rest [Hlo Hhi] Hall Hend.
  - destruct body as [| c body]; simpl in *; [| lia].
    assert (lo = 0)%nat as -> by lia.
    change ("" +:+ rest) with rest. simpl. exact Hend.
  - destruct body as [| c body]; simpl in Hlo, Hhi.
    + assert (lo = 0)%nat as -> by lia.
      change ("" +:+ rest) with rest.
      destruct rest as [| c r]; simpl; [reflexivity |].
      simpl in Hend. rewrite Hend. apply orb_true_r.
    + rewrite app_cons. simpl.
      rewrite (Hall c) by (left; reflexivity).
      rewrite IH; [reflexivity | lia | | exact Hend].
      intros c' Hc'. apply Hall. right. exact Hc'.
Qed.

Lemma id_char_iff (c : ascii) : id_char c = true <-> In c id_alphabet.
Proof.
  split; [| apply id_char_In].
  rewrite id_char_alphabet. intros Hc.
  apply existsb_exists in Hc as (c' & Hin & Heq).
  apply Ascii.eqb_eq in Heq. subst c'. exact Hin.
Qed.

(** X14. The identifier test accepts exactly the texts made of 3 to 25
    characters among letters, digits, [_] and [-], followed by nothing or
    by one final newline (the [$] of the pattern matches before it). *)
Theorem idcheck_match_exactly (s : string) :
  idcheck_match s = true <->
  exists body,
    (s = body \/ s = body +:+ newline)
    /\ (3 <= String.length body <= 25)%nat
    /\ (forall c, In c (list_ascii_of_string body) -> In c id_alphabet).
Proof.
  split.
  - intros Hm. destruct (idcheck_match_sound s Hm) as (body & Hs & Hlen & Hall).
    exists body. split; [exact Hs |]. split; [exact Hlen |].
    intros c Hc. apply id_char_iff, Hall, Hc.
  - intros (body & Hs & Hlen & Hall).
    assert (forall c, In c (list_ascii_of_string body) -> id_char c = true)
      as Hcls by (intros c Hc; apply id_char_iff, Hall, Hc).
    unfold idcheck_match. destruct Hs as [-> | ->].
    + apply repeat_class_all; assumption.
    + apply repeat_class_complete; [exact Hlen | exact Hcls | reflexivity].
Qed.

Lemma idcheck_match_exactly_witness :
  idcheck_match ("gw_1" +:+ newline) = true
  /\ exists body,
       ("smsc-A" = body \/ "smsc-A" = body +:+ newline)
       /\ (3 <= String.length body <= 25)%nat
       /\ (forall c, In c (list_ascii_of_string body) -> In c id_alphabet).
Proof.
  split.
  - apply (proj2 (idcheck_match_exactly ("gw_1" +:+ newline))).
    exists "gw_1". split; [right; reflexivity |]. split; [simpl; lia |].
    intros c Hc. simpl in Hc.
    repeat (destruct Hc as [<- | Hc]; [vm_compute; tauto |]). destruct Hc.
  - apply (proj1 (idcheck_match_exactly "smsc-A")). reflexivity.
Defined.

(** * A tuple where a bind operation or a data coding is expected *)

Lemma tuple_outside (items : list value) (allowed : list value) :
  forallb (fun w => negb (is_tuple w)) allowed = true ->
  py_in (VTuple items) allowed = false.
Proof.
  intros Hscalars. apply py_in_outside. intros w Hw.
  assert (is_tuple w = false) as Hscalar.
  { apply negb_true_iff.
    exact (proj1 (List.forallb_forall _ allowed) Hscalars w Hw). }
  destruct w; simpl in *; congruence.
Qed.

(** X16. The error messages of the two domain checks are built with [%],
    which takes a tuple as its list of arguments.  For an input that
    passes the identifier gate and every type check, a [bindOperation]
    that is a tuple is refused, but not always with [UnknownValue]: with
    no item or with several items the constructor raises the built-in
    [TypeError], and with one item it raises [UnknownValue] with the text
    form of the item, not of the tuple, in the message.  The same holds
    of a tuple as [data_coding] when [bindOperation] is left out or
    valid. *)
Theorem tuple_domain_value `{!PyRuntime} (kwargs : gmap string value)
    (items : list value) :
  id_gate kwargs = None ->
  type_gates_pass kwargs = true ->
  (kwargs !! "bindOperation" = Some (VTuple items) ->
   SMPPClientConfig.__init__ kwargs =
     match items with
     | [] => Raise (TypeError "not enough arguments for format string")
     | [x] => Raise (UnknownValue ("Invalid bindOperation: " +:+ py_str x))
     | _ =>
         Raise (TypeError "not all arguments converted during string formatting")
     end)
  /\ (kwargs !! "data_coding" = Some (VTuple items) ->
      bindOperation_inside kwargs ->
      SMPPClientConfig.__init__ kwargs =
        match items with
        | [] => Raise (TypeError "not enough arguments for format string")
        | [x] => Raise (UnknownValue ("Invalid data_coding: " +:+ py_str x))
        | _ =>
            Raise
              (TypeError "not all arguments converted during string formatting")
        end).
Proof.
  intros Hid Hty. pose proof (first_error_domain kwargs Hty) as Hdom.
  cbn [first_error run_check] in Hdom.
  split.
  - intros Hv.
    assert (first_error kwargs checks =
              match percent_s "Invalid bindOperation: " (VTuple items) with
              | Ok msg => Some (UnknownValue msg)
              | Raise e => Some e
              end) as Hfirst.
    { rewrite Hdom, (kwargs_get_Some _ _ _ _ Hv).
      rewrite (tuple_outside items SMPPClientConfig.bindOperation_values)
        by reflexivity.
      destruct (percent_s _ (VTuple items)); reflexivity. }
    destruct items as [| x [| y l]]; apply init_raises; right;
      (split; [exact Hid | exact Hfirst]).
  - intros Hv Hbind.
    assert (first_error kwargs checks =
              match percent_s "Invalid data_coding: " (VTuple items) with
              | Ok msg => Some (UnknownValue msg)
              | Raise e => Some e
              end) as Hfirst.
    { rewrite Hdom, (bindOperation_inside_passes kwargs Hbind).
      rewrite (kwargs_get_Some _ _ _ _ Hv).
      rewrite (tuple_outside items SMPPClientConfig.data_coding_values)
        by reflexivity.
      destruct (percent_s _ (VTuple items)); reflexivity. }
    destruct items as [| x [| y l]]; apply init_raises; right;
      (split; [exact Hid | exact Hfirst]).
Qed.

Lemma tuple_domain_value_witness :
  @SMPPClientConfig.__init__ sample_runtime
    (<[ "bindOperation" := VTuple [VStr "a"; VStr "b"] ]>
       {[ "id" := VStr "gw1" ]}) =
    Raise (TypeError "not all arguments converted during string formatting")
  /\ @SMPPClientConfig.__init__ sample_runtime
       (<[ "bindOperation" := VTuple [VStr "a"] ]> {[ "id" := VStr "gw1" ]}) =
       Raise (UnknownValue "Invalid bindOperation: a")
  /\ @SMPPClientConfig.__init__ sample_runtime
       (<[ "data_coding" := VTuple [] ]> {[ "id" := VStr "gw1" ]}) =
       Raise (TypeError "not enough arguments for format string").
Proof.
  split; [| split].
  - destruct (@tuple_domain_value sample_runtime
                (<[ "bindOperation" := VTuple [VStr "a"; VStr "b"] ]>
                   {[ "id" := VStr "gw1" ]})
                [VStr "a"; VStr "b"]) as (Hbind & _);
      [reflexivity | reflexivity |].
    apply Hbind. reflexivity.
  - destruct (@tuple_domain_value sample_runtime
                (<[ "bindOperation" := VTuple [VStr "a"] ]>
                   {[ "id" := VStr "gw1" ]})
                [VStr "a"]) as (Hbind & _);
      [reflexivity | reflexivity |].
    apply Hbind. reflexivity.
  - destruct (@tuple_domain_value sample_runtime
                (<[ "data_coding" := VTuple [] ]> {[ "id" := VStr "gw1" ]})
                []) as (_ & Hcoding);
      [reflexivity | reflexivity |].
    apply Hcoding; [reflexivity | left; reflexivity].
Defined.
